(** * Spendify server: the account-transactions pipeline

    A shallow embedding of [getAccountTransactions]
    (src/layers/api/accounts/accounts.handlers.ts, and the older routes file
    that carries the same body): cumulative-balance mapping, fuzzy search,
    interval filtering, categorisation and the final sort by [weight].

    The third-party packages the handler calls are embedded as follows.
    - currency.js: modelled concretely on integers (the [intValue] in minor
      units), [None] standing for [NaN].  JavaScript doubles are taken as
      exact, which they are for integers below 2^53.
    - date-fns [startOfDay]/[endOfDay]: modelled on epoch milliseconds, the
      process's local time zone being a fixed offset.
    - [new Date(string)], fuzzysort's scoring algorithm and the loaded
      natural [BayesClassifier] are parameters of the development.
    Strings are sequences of bytes; every character outside the ASCII range
    is one that currency.js drops from an amount. *)

From Stdlib Require Import String Ascii List ZArith NArith Bool Lia.
From Stdlib Require Import Permutation Sorted.
Import ListNotations.

Local Open Scope string_scope.
Local Open Scope list_scope.
Local Open Scope Z_scope.

(** ** JavaScript values the handler relies on *)

Module Js.

(** What the handler can throw: [ServerError] is the repository's own class
    (status code), [TypeError] is the runtime's error for reading a property
    of [undefined], [LibraryError] is anything thrown inside a package. *)
Inductive exn : Type :=
| ServerError (status : Z)
| TypeError
| LibraryError (message : string).

Inductive result (A : Type) : Type :=
| Ok (a : A)
| Throw (e : exn).

Arguments Ok {A} a.
Arguments Throw {A} e.

Definition bind {A B : Type} (r : result A) (k : A -> result B) : result B :=
  match r with
  | Ok a => k a
  | Throw e => Throw e
  end.

(** A query parameter is [undefined] or a string; only a non-empty string is
    truthy. *)
Definition truthy (v : option string) : bool :=
  match v with
  | Some s => negb (String.eqb s EmptyString)
  | None => false
  end.

(** [array[0]]: [undefined] when the array is empty. *)
Definition first {A : Type} (l : list A) : option A := nth_error l 0.

End Js.

Import Js.

Declare Scope js_scope.
Notation "x <- c1 ;; c2" := (bind c1 (fun x => c2))
  (at level 61, c1 at next level, right associativity) : js_scope.
Local Open Scope js_scope.

(** A list obtained from another by dropping elements, the rest keeping its
    order. *)
Inductive Subsequence {A : Type} : list A -> list A -> Prop :=
| Subsequence_nil : Subsequence [] []
| Subsequence_keep (x : A) (l' l : list A) :
    Subsequence l' l -> Subsequence (x :: l') (x :: l)
| Subsequence_drop (x : A) (l' l : list A) :
    Subsequence l' l -> Subsequence l' (x :: l).

(** ** currency.js *)

Module Currency.

Definition chars (s : string) : list ascii := list_ascii_of_string s.
Definition text (l : list ascii) : string := string_of_list_ascii l.

Definition isChar (a b : ascii) : bool := Ascii.eqb a b.

Definition digitVal (c : ascii) : option N :=
  let n := N_of_ascii c in
  if ((48 <=? n) && (n <=? 57))%N then Some (n - 48)%N else None.

Definition isDigit (c : ascii) : bool :=
  match digitVal c with Some _ => true | None => false end.

Definition digitChar (n : N) : ascii := ascii_of_N (48 + n).

(** Value of a run of decimal digits, [None] if another character occurs. *)
Fixpoint digitsValueFrom (acc : N) (l : list ascii) : option N :=
  match l with
  | [] => Some acc
  | c :: l' =>
      match digitVal c with
      | Some d => digitsValueFrom (10 * acc + d)%N l'
      | None => None
      end
  end.

Definition digitsValue (l : list ascii) : option N := digitsValueFrom 0%N l.

(** Decimal digits of a natural number, most significant first. *)
Fixpoint digitsOfFuel (fuel : nat) (n : N) : list ascii :=
  match fuel with
  | O => [digitChar (n mod 10)]
  | S fuel' =>
      if (n <? 10)%N then [digitChar n]
      else digitsOfFuel fuel' (n / 10) ++ [digitChar (n mod 10)]
  end.

Definition digitsOf (n : N) : list ascii := digitsOfFuel (N.to_nat (N.log2 n)) n.

(** Settings of a currency object; [decimal] is a single character in both
    configurations the handler uses. *)
Record Settings : Type := {
  symbol : string;
  separator : string;
  decimal : ascii
}.

(** [{ symbol: '', separator: '', decimal: '.' }], as the routes file spells
    it out. *)
Definition NORDIGEN_CURRENCY : Settings :=
  {| symbol := ""; separator := ""; decimal := "." |}.

(** [{ decimal: ',', separator: '.' }] (the routes file's
    [FINAL_CURRENCY_FORMAT]) merged over [NORDIGEN_CURRENCY] by
    [format(options)]. *)
Definition FORMATTED_CURRENCY : Settings :=
  {| symbol := ""; separator := "."; decimal := "," |}.

(** Line feed and carriage return, the line terminators of the ASCII range. *)
Definition isLineTerminator (c : ascii) : bool :=
  isChar c "010" || isChar c "013".

(** The text after an opening parenthesis, split at the last closing one on
    the same line: the greedy group of the pattern that [parse] uses to read
    a parenthesised amount as a negative one. *)
Fixpoint splitLastClose (l : list ascii) : option (list ascii * list ascii) :=
  match l with
  | [] => None
  | c :: l' =>
      if isLineTerminator c then None
      else
        match splitLastClose l' with
        | Some (inside, rest) => Some (c :: inside, rest)
        | None => if isChar c ")" then Some ([], l') else None
        end
  end.

(** First [replace] of [parse]: the first parenthesised group, if any, loses
    its parentheses and gets a leading minus sign. *)
Fixpoint replaceParens (l : list ascii) : list ascii :=
  match l with
  | [] => []
  | c :: l' =>
      if isChar c "(" then
        match splitLastClose l' with
        | Some (inside, rest) => "-"%char :: inside ++ rest
        | None => c :: replaceParens l'
        end
      else c :: replaceParens l'
  end.

(** [.replace(/[^-\d<decimal>]/g, '').replace(/<decimal>/g, '.')] *)
Definition keepNumeric (dec : ascii) (l : list ascii) : list ascii :=
  map (fun c => if isChar c dec then "."%char else c)
      (filter (fun c => isChar c "-" || isDigit c || isChar c dec) l).

Fixpoint splitAtDot (l : list ascii) : list ascii * option (list ascii) :=
  match l with
  | [] => ([], None)
  | c :: l' =>
      if isChar c "." then ([], Some l')
      else let (whole, frac) := splitAtDot l' in (c :: whole, frac)
  end.

(** A decimal numeral read by the runtime's string-to-number conversion:
    sign, digits of the mantissa and the number of fraction digits. *)
Record Numeral : Type := {
  negative : bool;
  mantissa : N;
  fractionDigits : nat
}.

(** String-to-number conversion on text made of ['-'], digits and ['.']:
    an optional sign, then digits with an optional fraction, or a fraction
    alone.  [None] is [NaN]. *)
Definition toNumber (l : list ascii) : option Numeral :=
  let (neg, body) :=
    match l with
    | c :: r => if isChar c "-" then (true, r) else (false, l)
    | [] => (false, l)
    end in
  match splitAtDot body with
  | (whole, None) =>
      match whole with
      | [] => None
      | _ => option_map (fun m => {| negative := neg; mantissa := m; fractionDigits := 0 |})
                        (digitsValue whole)
      end
  | (whole, Some frac) =>
      match whole, frac with
      | [], [] => None
      | _, _ => option_map (fun m => {| negative := neg; mantissa := m;
                                        fractionDigits := length frac |})
                           (digitsValue (whole ++ frac))
      end
  end.

(** [v *= precision; v = v.toFixed(4); Math.round(v)] with precision 100:
    the numeral in minor units, rounded to four places (half away from zero)
    and then to an integer (half up). *)
Definition roundToMinor (x : Numeral) : Z :=
  let scale := 10 ^ Z.of_nat (fractionDigits x) in
  let fixed4 := (2 * Z.of_N (mantissa x) * 1000000 + scale) / (2 * scale) in
  let signed := if negative x then - fixed4 else fixed4 in
  (2 * signed + 10000) / 20000.

(** [parse(value, opts)] for a string [value]: the [intValue]. The empty
    text left after the clean-up counts as [0] ([v = v || 0]). *)
Definition parse (opts : Settings) (value : string) : option Z :=
  match keepNumeric (decimal opts) (replaceParens (chars value)) with
  | [] => Some 0
  | v => option_map roundToMinor (toNumber v)
  end.

(** [currency(value, NORDIGEN_CURRENCY)], kept as its [intValue]. *)
Definition nordigenCurrency (value : string) : option Z :=
  parse NORDIGEN_CURRENCY value.

(** [this.subtract(number)] for a string [number]. *)
Definition subtract (opts : Settings) (this : option Z) (number : string) : option Z :=
  match this, parse opts number with
  | Some a, Some b => Some (a - b)
  | _, _ => None
  end.

(** [dollars.replace(/(\d)(?=(\d{3})+\b)/g, '$1' + separator)] *)
Fixpoint groupDigits (sep : list ascii) (ds : list ascii) : list ascii :=
  match ds with
  | [] => []
  | d :: rest =>
      if (0 <? length rest)%nat && (Nat.eqb (length rest mod 3) 0)
      then d :: sep ++ groupDigits sep rest
      else d :: groupDigits sep rest
  end.

Definition twoDigits (n : N) : list ascii :=
  [digitChar (n / 10); digitChar (n mod 10)].

(** [format(currency, settings)] with the default patterns ['!#'] and
    ['-!#']; a [NaN] amount takes the negative pattern. *)
Definition formatChars (opts : Settings) (c : option Z) : list ascii :=
  match c with
  | None => "-"%char :: chars (symbol opts) ++ chars "NaN"
  | Some z =>
      let a := Z.abs_N z in
      (if 0 <=? z then [] else ["-"%char])
        ++ chars (symbol opts)
        ++ groupDigits (chars (separator opts)) (digitsOf (a / 100))
        ++ decimal opts :: twoDigits (a mod 100)
  end.

Definition format (opts : Settings) (c : option Z) : string :=
  text (formatChars opts c).

(** The characters the clean-up of [parse] keeps under [NORDIGEN_CURRENCY]. *)
Definition plainNumeric (c : ascii) : bool :=
  isChar c "-" || isDigit c || isChar c ".".


End Currency.

Import Currency.

(** ** date-fns *)

Module DateFns.

Definition msPerDay : Z := 86400000.

(** [setHours(0, 0, 0, 0)] on local wall-clock time, which is the epoch time
    plus the zone's offset. *)
Definition startOfDay (offset t : Z) : Z := t - (t + offset) mod msPerDay.

(** [setHours(23, 59, 59, 999)] *)
Definition endOfDay (offset t : Z) : Z := startOfDay offset t + (msPerDay - 1).

End DateFns.

(** ** Data *)

(** A booked transaction as the provider returns it; the field
    [transactionAmount] holds the string [transactionAmount.amount]. *)
Record RawTransaction : Type := {
  transactionId : string;
  bookingDate : string;
  transactionAmount : string;
  remittanceInformationUnstructuredArray : list string
}.

(** The object built by the cumulative-balance map. A [Date] is its time value
    in milliseconds, [None] for an invalid date; [title] is [None] when it is
    [undefined]; [totalAmountInt] is the balance in minor units ([.value]
    times 100). *)
Record MappedTransaction : Type := {
  id : string;
  weight : nat;
  title : option string;
  date : option Z;
  amount : string;
  totalAmount : string;
  totalAmountInt : option Z
}.

(** [{ ...transaction, category }] *)
Record CategorizedTransaction : Type := {
  transaction : MappedTransaction;
  category : string
}.

(** An entry of [getClassifications]; its numeric [value] is never read. *)
Record Classification : Type := {
  label : string
}.

(** ** Stand-ins for the parameters, used to run the pipeline on examples *)

Module Sample.

Definition digit2 (a b : ascii) : option Z :=
  match digitsValue [a; b] with Some n => Some (Z.of_N n) | None => None end.

Definition daysFromCivil (y m d : Z) : Z :=
  let y' := if m <=? 2 then y - 1 else y in
  let era := y' / 400 in
  let yoe := y' - era * 400 in
  let doy := (153 * (if 2 <? m then m - 3 else m + 9) + 2) / 5 + d - 1 in
  era * 146097 + (yoe * 365 + yoe / 4 - yoe / 100 + doy) - 719468.

(** Reads [YYYY-MM-DD] as midnight UTC; everything else is an invalid date. *)
Definition newDate (s : string) : option Z :=
  match chars s with
  | [y1; y2; y3; y4; "-"%char; m1; m2; "-"%char; d1; d2] =>
      match digitsValue [y1; y2; y3; y4], digit2 m1 m2, digit2 d1 d2 with
      | Some y, Some m, Some d =>
          if (1 <=? m) && (m <=? 12) && (1 <=? d) && (d <=? 31)
          then Some (daysFromCivil (Z.of_N y) m d * DateFns.msPerDay)
          else None
      | _, _, _ => None
      end
  | _ => None
  end.

Fixpoint isPrefix (p l : list ascii) : bool :=
  match p, l with
  | [], _ => true
  | a :: p', b :: l' => isChar a b && isPrefix p' l'
  | _ :: _, [] => false
  end.

Fixpoint findFrom (p l : list ascii) (pos : Z) : option Z :=
  match l with
  | [] => if isPrefix p [] then Some pos else None
  | _ :: l' => if isPrefix p l then Some pos else findFrom p l' (pos + 1)
  end.

(** A substring match scores minus its position, anything else is no match. *)
Definition fuzzyScore (search target : string) : option Z :=
  option_map Z.opp (findFrom (chars search) (chars target) 0).

(** Titles containing [Netto] are groceries, the others are [Other]; an
    [undefined] title makes the classifier throw. *)
Definition getClassifications (observation : option string) : result (list Classification) :=
  match observation with
  | None => Throw (LibraryError "Cannot read properties of undefined")
  | Some t =>
      match findFrom (chars "Netto") (chars t) 0 with
      | Some _ => Ok [ {| label := "Food & Groceries" |}; {| label := "Other" |} ]
      | None => Ok [ {| label := "Other" |}; {| label := "Food & Groceries" |} ]
      end
  end.

(** A classifier that answers for every observation. *)
Definition getClassificationsTotal (observation : option string) : result (list Classification) :=
  match observation with
  | None => Ok [ {| label := "Other" |} ]
  | Some _ => getClassifications observation
  end.

(** The regression vector of the specification: amounts 100, -30 and 10,
    newest first. *)
Definition fixture : list RawTransaction :=
  [ {| transactionId := "A"; bookingDate := "2023-05-10"; transactionAmount := "100";
       remittanceInformationUnstructuredArray := ["May salary, Netto payroll"] |};
    {| transactionId := "B"; bookingDate := "2023-05-05"; transactionAmount := "-30";
       remittanceInformationUnstructuredArray := ["Netto Amager"] |};
    {| transactionId := "C"; bookingDate := "2023-05-01"; transactionAmount := "10";
       remittanceInformationUnstructuredArray := [] |} ].

Definition booked : list RawTransaction :=
  fixture ++
  [ {| transactionId := "D"; bookingDate := "2023-04-30"; transactionAmount := "-12.50";
       remittanceInformationUnstructuredArray := ["Netto City"; "card 1234"] |} ].


End Sample.

(** ** The other handlers and the authentication middleware *)

(** [for (const item of items) { ...; array.push(element) }], where computing
    the element may throw. *)
Fixpoint forOfPush {A B : Type} (body : A -> result B) (items : list A) (array : list B)
    : result (list B) :=
  match items with
  | [] => Ok array
  | item :: rest =>
      element <- body item ;;
      forOfPush body rest (array ++ [element])
  end.

Module Auth.

(** The pieces of [s.split(sep)]: the first piece and the pieces after it. *)
Fixpoint splitPieces (sep : ascii) (l : list ascii) : list ascii * list (list ascii) :=
  match l with
  | [] => ([], [])
  | c :: l' =>
      let (piece, pieces) := splitPieces sep l' in
      if isChar c sep then ([], piece :: pieces) else (c :: piece, pieces)
  end.

Definition split (sep : ascii) (s : string) : list string :=
  let (piece, pieces) := splitPieces sep (chars s) in
  map text (piece :: pieces).

(** [req.headers.authorization?.split(' ')[1]] *)
Definition headerToken (authorization : option string) : option string :=
  match authorization with
  | Some header => nth_error (split " " header) 1
  | None => None
  end.

(** The decoded payload; only its [id] is read. *)
Record JwtPayload (Id : Type) : Type := {
  id : Id
}.

Arguments id {Id} _.

(** [verifyUser]: [jwtVerify] is [jwt.verify(token, JWT_ACCESS_SECRET_KEY)];
    the result is the value stored in [res.locals.userId] when [next()] is
    called. *)
Definition verifyUser {Id : Type} (jwtVerify : string -> result (JwtPayload Id))
    (authorization : option string) : result Id :=
  let token := headerToken authorization in
  if negb (truthy token) then Throw (ServerError 401)
  else
    match token with
    | Some t =>
        match jwtVerify t with
        | Ok tokenInfo => Ok (id tokenInfo)
        | Throw _ => Throw (ServerError 401)
        end
    | None => Throw (ServerError 401)
    end.

End Auth.

(** A text without a space. *)
Definition spaceless (s : string) : Prop :=
  Forall (fun c => isChar c " " = false) (chars s).

(** A row of the [accounts] table; the values are only copied. *)
Module Db.

Record UserAccount : Type := {
  id : string;
  requisition_id : string;
  account_id : string;
  account_name : string;
  account_iban : string;
  bank_name : string;
  bank_logo : string
}.

End Db.

Module Nordigen.

(** [details.account] of the account-details answer. *)
Record AccountDetails : Type := {
  name : string;
  iban : string
}.

End Nordigen.

(** [nordigenCurrency(balances.balances[0].balanceAmount.amount)
    .format(FORMATTED_CURRENCY)]; the balances answer is the list of its
    amounts. *)
Definition formattedBalance (balances : list string) : result string :=
  match first balances with
  | Some amount => Ok (format FORMATTED_CURRENCY (nordigenCurrency amount))
  | None => Throw TypeError
  end.

Module LinkedAccounts.

Record Account : Type := {
  id : string;
  requisitionId : string;
  accountId : string;
  accountBalance : string;
  accountName : string;
  accountIban : string;
  bankName : string;
  bankLogo : string
}.

(** The object pushed for a row, given its balance text. *)
Definition toAccount (account : Db.UserAccount) (balance : string) : Account :=
  {| id := Db.id account;
     requisitionId := Db.requisition_id account;
     accountId := Db.account_id account;
     accountBalance := balance;
     accountName := Db.account_name account;
     accountIban := Db.account_iban account;
     bankName := Db.bank_name account;
     bankLogo := Db.bank_logo account |}.

(** The element the loop for a real user pushes. *)
Definition withBalance (getNordigenAccountBalances : string -> result (list string))
    (account : Db.UserAccount) : result Account :=
  balances <- getNordigenAccountBalances (Db.account_id account) ;;
  balance <- formattedBalance balances ;;
  Ok (toAccount account balance).

(** [getAccounts] of the handlers file. *)
Definition getAccounts (MOCKED_USER_ID userId : string)
    (getUserAccounts : string -> result (list Db.UserAccount))
    (getNordigenAccountBalances : string -> result (list string))
    : result (list Account) :=
  data <- getUserAccounts userId ;;
  if String.eqb userId MOCKED_USER_ID
  then forOfPush (fun account => Ok (toAccount account "20.000,00")) data []
  else forOfPush (withBalance getNordigenAccountBalances) data [].

(** The loop of the older ['/'] route: the mocked user is answered inside
    the loop, at the first row. *)
Fixpoint routeLoop (isMock : bool)
    (getNordigenAccountBalances : string -> result (list string))
    (data : list Db.UserAccount) (accounts : list Account) : result (list Account) :=
  match data with
  | [] => Ok accounts
  | account :: rest =>
      if isMock then Ok [toAccount account "20.000,00"]
      else
        element <- withBalance getNordigenAccountBalances account ;;
        routeLoop isMock getNordigenAccountBalances rest (accounts ++ [element])
  end.

(** The handler of the older ['/'] route. *)
Definition getAccountsRoute (MOCKED_USER_ID userId : string)
    (getLinkedAccounts : string -> result (list Db.UserAccount))
    (getNordigenAccountBalances : string -> result (list string))
    : result (list Account) :=
  data <- getLinkedAccounts userId ;;
  routeLoop (String.eqb userId MOCKED_USER_ID) getNordigenAccountBalances data [].

End LinkedAccounts.

Module AvailableAccounts.

Record Account : Type := {
  requisitionId : string;
  accountId : string;
  accountName : string;
  accountIban : string;
  accountBalance : string
}.

(** The element the loop pushes for one account id. *)
Definition describe (requisition : string)
    (getNordigenAccountDetails : string -> result Nordigen.AccountDetails)
    (getNordigenAccountBalances : string -> result (list string))
    (account : string) : result Account :=
  details <- getNordigenAccountDetails account ;;
  balances <- getNordigenAccountBalances account ;;
  balance <- formattedBalance balances ;;
  Ok {| requisitionId := requisition;
        accountId := account;
        accountName := Nordigen.name details;
        accountIban := Nordigen.iban details;
        accountBalance := balance |}.

(** [getAvailableAccounts] after request validation; [uuid] is the value
    [uuid()] returns, [getNordigenRequisitions] gives [data.accounts]. *)
Definition getAvailableAccounts (MOCKED_USER_ID userId requisition uuid : string)
    (getNordigenRequisitions : string -> result (list string))
    (getNordigenAccountDetails : string -> result Nordigen.AccountDetails)
    (getNordigenAccountBalances : string -> result (list string))
    : result (list Account) :=
  if String.eqb userId MOCKED_USER_ID
  then Ok [ {| requisitionId := requisition;
               accountId := uuid;
               accountName := "Fake Account";
               accountIban := "DK7050516477944871";
               accountBalance := "20.000,00" |} ]
  else
    accounts <- getNordigenRequisitions requisition ;;
    forOfPush (describe requisition getNordigenAccountDetails getNordigenAccountBalances)
      accounts [].

End AvailableAccounts.

(** Stand-ins for the token check, the table and the provider. *)
Module SampleRequests.

Definition jwtVerify (token : string) : result (Auth.JwtPayload string) :=
  if String.eqb token "signed-for-u1" then Ok {| Auth.id := "u1" |}
  else Throw (LibraryError "invalid signature").

Definition row (n account : string) : Db.UserAccount :=
  {| Db.id := n; Db.requisition_id := "req-1"; Db.account_id := account;
     Db.account_name := "Budget"; Db.account_iban := "DK0000000000000000";
     Db.bank_name := "Bank"; Db.bank_logo := "logo.png" |}.

Definition getUserAccounts (userId : string) : result (list Db.UserAccount) :=
  if String.eqb userId "u1" then Ok [row "1" "acc-1"; row "2" "acc-2"]
  else if String.eqb userId "mock" then Ok [row "7" "acc-7"; row "8" "acc-8"]
  else Ok [].

Definition getNordigenAccountBalances (account : string) : result (list string) :=
  if String.eqb account "acc-1" then Ok ["1234.5"; "1200.00"]
  else if String.eqb account "acc-2" then Ok ["-20"]
  else Throw (LibraryError "404").

Definition getNordigenAccountDetails (account : string) : result Nordigen.AccountDetails :=
  Ok {| Nordigen.name := "Budget"; Nordigen.iban := "DK0000000000000000" |}.

Definition getNordigenRequisitions (requisition : string) : result (list string) :=
  if String.eqb requisition "req-1" then Ok ["acc-1"; "acc-2"]
  else Throw (LibraryError "404").

(** A provider that is down. *)
Definition unreachable {A : Type} (_ : string) : result A :=
  Throw (LibraryError "ECONNREFUSED").

(** A user whose second account the provider does not know. *)
Definition getUserAccountsStale (userId : string) : result (list Db.UserAccount) :=
  Ok [row "1" "acc-1"; row "3" "acc-9"; row "2" "acc-2"].

(** The table lookup for a user and an account: only [acc-1] of [u1]. *)
Definition getLinkedAccount (userId accountId : string) : result (list Db.UserAccount) :=
  if String.eqb userId "u1" && String.eqb accountId "acc-1" then Ok [row "1" "acc-1"]
  else Ok [].

(** Transactions whose second amount is no number for the runtime. *)
Definition spoiled : list RawTransaction :=
  [ {| transactionId := "S1"; bookingDate := "2023-05-10"; transactionAmount := "100";
       remittanceInformationUnstructuredArray := ["Rent"] |};
    {| transactionId := "S2"; bookingDate := "2023-05-09"; transactionAmount := "1.2.3";
       remittanceInformationUnstructuredArray := ["Netto Amager"] |};
    {| transactionId := "S3"; bookingDate := "2023-05-08"; transactionAmount := "5";
       remittanceInformationUnstructuredArray := ["Netto City"] |} ].

End SampleRequests.

(** ** The handler *)

Section Handler.

(** [new Date(string)]: the time value, [None] for an invalid date. *)
Variable newDate : string -> option Z.

(** Offset of the process's time zone from UTC, in milliseconds. *)
Variable timezoneOffset : Z.

(** fuzzysort's match of a search text against one prepared target: the score
    of the match, [None] when the target does not match. *)
Variable fuzzyScore : string -> string -> option Z.

(** [classifier.getClassifications(observation)] of the loaded model. *)
Variable getClassifications : option string -> result (list Classification).

Definition startOfDay (d : option Z) : option Z :=
  option_map (DateFns.startOfDay timezoneOffset) d.

Definition endOfDay (d : option Z) : option Z :=
  option_map (DateFns.endOfDay timezoneOffset) d.

(** [a >= b] and [a <= b] on dates compare time values; a comparison with an
    invalid date is false. *)
Definition dateGe (a b : option Z) : bool :=
  match a, b with
  | Some x, Some y => y <=? x
  | _, _ => false
  end.

Definition dateLe (a b : option Z) : bool :=
  match a, b with
  | Some x, Some y => x <=? y
  | _, _ => false
  end.

(** *** Map cumulative balance *)

(** One call of the [map] callback: [currentBalance] is the variable the
    callback closes over, returned with its new content. *)
Definition mapTransaction (transactions : list RawTransaction) (currentBalance : string)
    (transaction : RawTransaction) (index : nat) : string * MappedTransaction :=
  let currentBalance :=
    if Nat.eqb index 0 then currentBalance
    else
      match nth_error transactions (index - 1) with
      | Some prev =>
          let prevTransactionAmount := transactionAmount prev in
          format NORDIGEN_CURRENCY
            (subtract NORDIGEN_CURRENCY (nordigenCurrency currentBalance) prevTransactionAmount)
      | None => currentBalance (* not taken: [index - 1] is an index of the array *)
      end in
  (currentBalance,
   {| id := transactionId transaction;
      weight := index;
      title := first (remittanceInformationUnstructuredArray transaction);
      date := newDate (bookingDate transaction);
      amount := format FORMATTED_CURRENCY (nordigenCurrency (transactionAmount transaction));
      totalAmount := format FORMATTED_CURRENCY (nordigenCurrency currentBalance);
      totalAmountInt := nordigenCurrency currentBalance |}).

(** The [map] over the elements from [index] on. *)
Fixpoint mapFrom (transactions : list RawTransaction) (currentBalance : string)
    (index : nat) (rest : list RawTransaction) : list MappedTransaction :=
  match rest with
  | [] => []
  | transaction :: rest' =>
      let (currentBalance', mapped) :=
        mapTransaction transactions currentBalance transaction index in
      mapped :: mapFrom transactions currentBalance' (S index) rest'
  end.

Definition mapCumulativeBalance (transactions : list RawTransaction)
    (currentBalance : string) : list MappedTransaction :=
  mapFrom transactions currentBalance 0 transactions.

(** *** Apply fuzzysort *)

Definition threshold : Z := -400.

(** The score of one object under [{ key: 'title', threshold: -400 }]: objects
    without a title or with an empty one are skipped, as are matches below
    the threshold. *)
Definition scoreTarget (search : string) (obj : MappedTransaction) : option Z :=
  match title obj with
  | None => None
  | Some target =>
      if String.eqb target "" then None
      else
        match fuzzyScore search target with
        | Some score => if score <? threshold then None else Some score
        | None => None
        end
  end.

Fixpoint insertByScore (r : Z * MappedTransaction) (rs : list (Z * MappedTransaction))
    : list (Z * MappedTransaction) :=
  match rs with
  | [] => [r]
  | r' :: rs' => if fst r' <=? fst r then r :: rs else r' :: insertByScore r rs'
  end.

(** [fuzzysort.go(search, targets, options)]: the matches, best score first.
    The order among equal scores is the package's; no result below relies on
    the order chosen here. *)
Fixpoint fuzzysortGo (search : string) (targets : list MappedTransaction)
    : list (Z * MappedTransaction) :=
  match targets with
  | [] => []
  | obj :: targets' =>
      match scoreTarget search obj with
      | Some score => insertByScore (score, obj) (fuzzysortGo search targets')
      | None => fuzzysortGo search targets'
      end
  end.

Definition applyFuzzysort (search : option string)
    (mappedTransactions : list MappedTransaction) : list MappedTransaction :=
  match search with
  | Some s =>
      if truthy search then map snd (fuzzysortGo s mappedTransactions)
      else mappedTransactions
  | None => mappedTransactions
  end.

(** *** Apply interval filtering *)

Definition inInterval (from to : string) (transaction : MappedTransaction) : bool :=
  let transactionDate := date transaction in
  let fromDate := startOfDay (newDate from) in
  let endDate := endOfDay (newDate to) in
  dateGe transactionDate fromDate && dateLe transactionDate endDate.

Definition applyIntervalFiltering (from to : option string)
    (mappedTransactions : list MappedTransaction) : list MappedTransaction :=
  match from, to with
  | Some f, Some t =>
      if truthy from && truthy to then filter (inInterval f t) mappedTransactions
      else mappedTransactions
  | _, _ => mappedTransactions
  end.

(** *** Apply categorization *)

(** [classifier.getClassifications(title)[0].label] *)
Definition classify (observation : option string) : result string :=
  classifications <- getClassifications observation ;;
  match first classifications with
  | Some c => Ok (label c)
  | None => Throw TypeError
  end.

(** [!category || category === classifiedCategory] *)
Definition categoryPasses (category : option string) (classifiedCategory : string) : bool :=
  negb (truthy category)
  || match category with
     | Some c => String.eqb c classifiedCategory
     | None => false
     end.

(** The [for ... of] loop; [categorizedTransactions] is the array pushed to. *)
Fixpoint categorizeLoop (category : option string)
    (mappedTransactions : list MappedTransaction)
    (categorizedTransactions : list CategorizedTransaction)
    : result (list CategorizedTransaction) :=
  match mappedTransactions with
  | [] => Ok categorizedTransactions
  | t :: rest =>
      classifiedCategory <- classify (title t) ;;
      if categoryPasses category classifiedCategory
      then categorizeLoop category rest
             (categorizedTransactions ++ [ {| transaction := t; category := classifiedCategory |} ])
      else categorizeLoop category rest categorizedTransactions
  end.

Definition applyCategorization (category : option string)
    (mappedTransactions : list MappedTransaction) : result (list CategorizedTransaction) :=
  categorizeLoop category mappedTransactions [].

(** *** Sort by weight *)

Definition weightOf (c : CategorizedTransaction) : nat := weight (transaction c).

Fixpoint insertByWeight (c : CategorizedTransaction) (cs : list CategorizedTransaction)
    : list CategorizedTransaction :=
  match cs with
  | [] => [c]
  | c' :: cs' =>
      if (weightOf c <=? weightOf c')%nat then c :: cs else c' :: insertByWeight c cs'
  end.

(** [array.sort((prev, next) => prev.weight - next.weight)], a stable sort. *)
Fixpoint sortByWeight (cs : list CategorizedTransaction) : list CategorizedTransaction :=
  match cs with
  | [] => []
  | c :: cs' => insertByWeight c (sortByWeight cs')
  end.

(** *** The whole body *)

(** The stages from the balance map to the data handed to [res.json]. *)
Definition enrich (transactions : list RawTransaction) (currentBalance : string)
    (search category from to : option string) : result (list CategorizedTransaction) :=
  let mappedTransactions := mapCumulativeBalance transactions currentBalance in
  let mappedTransactions := applyFuzzysort search mappedTransactions in
  let mappedTransactions := applyIntervalFiltering from to mappedTransactions in
  categorizedTransactions <- applyCategorization category mappedTransactions ;;
  Ok (sortByWeight categorizedTransactions).

(** [getAccountTransactions] after request validation: [accounts] is the
    database answer, [booked] and [balances] the provider's (or the mocked)
    transactions and balance amounts. *)
Definition getAccountTransactions {Account : Type} (accounts : list Account)
    (booked : list RawTransaction) (balances : list string)
    (search category from to : option string) : result (list CategorizedTransaction) :=
  match first accounts with
  | None => Throw (ServerError 403)
  | Some _ =>
      match first balances with
      | None => Throw TypeError
      | Some currentBalance => enrich booked currentBalance search category from to
      end
  end.

(** The whole of [getAccountTransactions] after request validation:
    [accounts] is the database answer for the user and the account, the two
    provider calls are made for every user but the mocked one. *)
Definition getAccountTransactionsRequest (MOCKED_USER_ID userId : string)
    (accounts : list Db.UserAccount)
    (getNordigenAccountTransactions : string -> result (list RawTransaction))
    (getNordigenAccountBalances : string -> result (list string))
    (mockedTransactions : list RawTransaction)
    (search category from to : option string) : result (list CategorizedTransaction) :=
  let isMock := String.eqb userId MOCKED_USER_ID in
  let mockedCurrentBalance := "20000.00" in
  match first accounts with
  | None => Throw (ServerError 403)
  | Some account =>
      booked <- (if negb isMock then getNordigenAccountTransactions (Db.account_id account)
                 else Ok mockedTransactions) ;;
      balances <- (if negb isMock then getNordigenAccountBalances (Db.account_id account)
                   else Ok [mockedCurrentBalance]) ;;
      match first balances with
      | None => Throw TypeError
      | Some currentBalance => enrich booked currentBalance search category from to
      end
  end.

(** The older route ['/transactions/:accountId']: [verifyUser], then the
    handler; [validation] is the outcome of [validationResult(req).throw()],
    [getLinkedAccount] the table lookup for a user and an account. *)
Definition transactionsRoute (jwtVerify : string -> result (Auth.JwtPayload string))
    (authorization : option string) (validation : result unit)
    (MOCKED_USER_ID accountId : string)
    (getLinkedAccount : string -> string -> result (list Db.UserAccount))
    (getNordigenAccountTransactions : string -> result (list RawTransaction))
    (getNordigenAccountBalances : string -> result (list string))
    (mockedTransactions : list RawTransaction)
    (search category from to : option string) : result (list CategorizedTransaction) :=
  userId <- Auth.verifyUser jwtVerify authorization ;;
  _ <- validation ;;
  accounts <- getLinkedAccount userId accountId ;;
  getAccountTransactionsRequest MOCKED_USER_ID userId accounts
    getNordigenAccountTransactions getNordigenAccountBalances mockedTransactions
    search category from to.

(** *** Notions used to state the results *)

(** The recurrence of the data model, in the words of the specification:
    the first running balance is the current balance, each next one is the
    previous balance minus the previous amount. *)
Fixpoint runningBalances (balance : option Z) (transactions : list RawTransaction)
    : list (option Z) :=
  match transactions with
  | [] => []
  | t :: rest =>
      balance :: runningBalances (subtract NORDIGEN_CURRENCY balance (transactionAmount t)) rest
  end.

(** Whether the search keeps an object. *)
Definition matched (search : string) (obj : MappedTransaction) : bool :=
  match scoreTarget search obj with
  | Some _ => true
  | None => false
  end.

(** What one turn of the loop pushes. *)
Definition pushed (category : option string) (t : MappedTransaction)
    : list CategorizedTransaction :=
  match classify (title t) with
  | Ok classifiedCategory =>
      if categoryPasses category classifiedCategory
      then [ {| transaction := t; category := classifiedCategory |} ]
      else []
  | Throw _ => []
  end.

Definition classifies (t : MappedTransaction) : Prop :=
  exists classifiedCategory, classify (title t) = Ok classifiedCategory.

(** Whether the loop keeps a transaction. *)
Definition retained (category : option string) (t : MappedTransaction) : bool :=
  match classify (title t) with
  | Ok classifiedCategory => categoryPasses category classifiedCategory
  | Throw _ => false
  end.

(** The list the categorisation loop runs over. *)
Definition searchedAndFiltered (transactions : list RawTransaction) (currentBalance : string)
    (search from to : option string) : list MappedTransaction :=
  applyIntervalFiltering from to
    (applyFuzzysort search (mapCumulativeBalance transactions currentBalance)).

Definition ascending : list CategorizedTransaction -> Prop :=
  StronglySorted (fun a b => (weightOf a <= weightOf b)%nat).

Definition strictlyAscending : list CategorizedTransaction -> Prop :=
  StronglySorted (fun a b => (weightOf a < weightOf b)%nat).

(** Whether the search step, as asked for, keeps a mapped transaction. *)
Definition searchPasses (search : option string) (m : MappedTransaction) : bool :=
  match search with
  | Some s => if truthy search then matched s m else true
  | None => true
  end.

(** Whether the interval step, as asked for, keeps a mapped transaction. *)
Definition intervalPasses (from to : option string) (m : MappedTransaction) : bool :=
  match from, to with
  | Some f, Some t => if truthy from && truthy to then inInterval f t m else true
  | _, _ => true
  end.


(** ** Facts about the currency model *)

Lemma digitVal_digitChar (n : N) : (n < 10)%N -> digitVal (digitChar n) = Some n.
Proof.
  intros Hn. unfold digitVal, digitChar.
  rewrite N_ascii_embedding by lia.
  replace ((48 <=? 48 + n)%N && (48 + n <=? 57)%N) with true.
  - f_equal. lia.
  - symmetry. apply andb_true_iff. split; apply N.leb_le; lia.
Qed.

Lemma isDigit_digitChar (n : N) : (n < 10)%N -> isDigit (digitChar n) = true.
Proof. intros Hn. unfold isDigit. now rewrite digitVal_digitChar. Qed.

Lemma digitsValueFrom_app (l1 l2 : list ascii) : forall acc,
  digitsValueFrom acc (l1 ++ l2) =
  match digitsValueFrom acc l1 with
  | Some a => digitsValueFrom a l2
  | None => None
  end.
Proof.
  induction l1 as [|c l1 IH]; intros acc; simpl; [reflexivity|].
  destruct (digitVal c); [apply IH | reflexivity].
Qed.

Lemma digitsValue_digitsOfFuel (fuel : nat) : forall n,
  (n < 2 ^ N.of_nat (S fuel))%N -> digitsValue (digitsOfFuel fuel n) = Some n.
Proof.
  induction fuel as [|fuel IH]; intros n Hn.
  - change (2 ^ N.of_nat 1)%N with 2%N in Hn.
    assert (Hm : (n mod 10 = n)%N) by (apply N.mod_small; lia).
    simpl. rewrite Hm. unfold digitsValue. simpl.
    rewrite digitVal_digitChar by lia. reflexivity.
  - simpl digitsOfFuel. destruct (N.ltb_spec n 10) as [Hlt|Hge].
    + unfold digitsValue. simpl. rewrite digitVal_digitChar by lia. reflexivity.
    + unfold digitsValue in *. rewrite digitsValueFrom_app.
      rewrite IH.
      * cbn [digitsValueFrom]. rewrite digitVal_digitChar by (apply N.mod_lt; lia).
        f_equal. pose proof (N.div_mod n 10). lia.
      * replace (N.of_nat (S (S fuel))) with (N.succ (N.of_nat (S fuel))) in Hn by lia.
        rewrite N.pow_succ_r' in Hn.
        apply N.Div0.div_lt_upper_bound. lia.
Qed.

Lemma digitsValue_digitsOf (n : N) : digitsValue (digitsOf n) = Some n.
Proof.
  unfold digitsOf. apply digitsValue_digitsOfFuel.
  destruct n as [|p]; [simpl; lia|].
  replace (N.of_nat (S (N.to_nat (N.log2 (N.pos p))))) with (N.succ (N.log2 (N.pos p))) by lia.
  apply N.log2_spec. lia.
Qed.

Lemma digitsOfFuel_digits (fuel : nat) : forall n,
  Forall (fun c => isDigit c = true) (digitsOfFuel fuel n).
Proof.
  induction fuel as [|fuel IH]; intros n; simpl.
  - constructor; [|constructor]. apply isDigit_digitChar, N.mod_lt. lia.
  - destruct (N.ltb_spec n 10).
    + constructor; [|constructor]. now apply isDigit_digitChar.
    + apply Forall_app. split; [apply IH|].
      constructor; [|constructor]. apply isDigit_digitChar, N.mod_lt. lia.
Qed.

Lemma digitsOf_nonempty (n : N) : digitsOf n <> [].
Proof.
  unfold digitsOf. destruct (N.to_nat (N.log2 n)); simpl; [discriminate|].
  destruct (n <? 10)%N; [discriminate|]. intros H. now apply app_eq_nil in H.
Qed.

Lemma groupDigits_nil (ds : list ascii) : groupDigits [] ds = ds.
Proof.
  induction ds as [|d ds IH]; [reflexivity|].
  cbn [groupDigits]. rewrite IH.
  now destruct ((0 <? List.length ds)%nat && Nat.eqb (List.length ds mod 3) 0).
Qed.

Lemma plainNumeric_not_paren (c : ascii) : plainNumeric c = true -> isChar c "(" = false.
Proof.
  unfold plainNumeric, isChar. intros H.
  destruct (Ascii.eqb_spec c "(") as [->|]; [discriminate H | reflexivity].
Qed.

Lemma replaceParens_plain (l : list ascii) :
  Forall (fun c => plainNumeric c = true) l -> replaceParens l = l.
Proof.
  induction 1 as [|c l Hc _ IH]; simpl; [reflexivity|].
  now rewrite (plainNumeric_not_paren c Hc), IH.
Qed.

Lemma keepNumeric_plain (l : list ascii) :
  Forall (fun c => plainNumeric c = true) l -> keepNumeric "." l = l.
Proof.
  unfold keepNumeric. induction 1 as [|c l Hc _ IH]; simpl; [reflexivity|].
  fold (plainNumeric c). rewrite Hc. simpl. rewrite IH. f_equal.
  unfold isChar. now destruct (Ascii.eqb_spec c ".") as [->|].
Qed.

Lemma isDigit_plain (c : ascii) : isDigit c = true -> plainNumeric c = true.
Proof. unfold plainNumeric. intros ->. now rewrite orb_true_r. Qed.

Lemma isDigit_not_dot (c : ascii) : isDigit c = true -> isChar c "." = false.
Proof.
  unfold isChar. destruct (Ascii.eqb_spec c ".") as [->|]; [discriminate | reflexivity].
Qed.

Lemma isDigit_not_minus (c : ascii) : isDigit c = true -> isChar c "-" = false.
Proof.
  unfold isChar. destruct (Ascii.eqb_spec c "-") as [->|]; [discriminate | reflexivity].
Qed.

Lemma splitAtDot_digits (ds frac : list ascii) :
  Forall (fun c => isDigit c = true) ds ->
  splitAtDot (ds ++ "."%char :: frac) = (ds, Some frac).
Proof.
  induction 1 as [|c ds Hc _ IH]; simpl; [reflexivity|].
  now rewrite (isDigit_not_dot c Hc), IH.
Qed.

Lemma roundToMinor_cents (neg : bool) (m : N) :
  roundToMinor {| negative := neg; mantissa := m; fractionDigits := 2 |} =
  if neg then - Z.of_N m else Z.of_N m.
Proof.
  unfold roundToMinor. simpl negative. simpl mantissa. simpl fractionDigits.
  change (10 ^ Z.of_nat 2) with 100.
  assert (H4 : (2 * Z.of_N m * 1000000 + 100) / (2 * 100) = Z.of_N m * 10000).
  { symmetry. apply (Z.div_unique _ _ _ 100); lia. }
  rewrite H4. destruct neg; symmetry; apply (Z.div_unique _ _ _ 10000); lia.
Qed.

(** Reading back a two-place amount printed without separators. *)
Lemma toNumber_printed (neg : bool) (whole cents : N) :
  (cents < 100)%N ->
  toNumber ((if neg then ["-"%char] else []) ++ digitsOf whole ++ "."%char :: twoDigits cents) =
  Some {| negative := neg; mantissa := whole * 100 + cents; fractionDigits := 2 |}.
Proof.
  intros Hc.
  pose proof (digitsOfFuel_digits (N.to_nat (N.log2 whole)) whole) as Hd.
  fold (digitsOf whole) in Hd.
  pose proof (digitsOf_nonempty whole) as Hne.
  assert (Hbody : toNumber ((if neg then ["-"%char] else []) ++ digitsOf whole ++ "."%char :: twoDigits cents)
                  = match splitAtDot (digitsOf whole ++ "."%char :: twoDigits cents) with
                    | (w, None) => match w with
                                   | [] => None
                                   | _ => option_map (fun m => {| negative := neg; mantissa := m; fractionDigits := 0 |}) (digitsValue w)
                                   end
                    | (w, Some frac) => match w, frac with
                                        | [], [] => None
                                        | _, _ => option_map (fun m => {| negative := neg; mantissa := m; fractionDigits := List.length frac |}) (digitsValue (w ++ frac))
                                        end
                    end).
  { destruct neg; [reflexivity|]. unfold toNumber. simpl app at 1.
    destruct (digitsOf whole) as [|c ds] eqn:E; [contradiction|].
    simpl app. inversion Hd as [|? ? Hc0 _]; subst.
    now rewrite (isDigit_not_minus c Hc0). }
  rewrite Hbody, splitAtDot_digits by exact Hd.
  destruct (digitsOf whole) as [|c ds] eqn:E; [contradiction|]. rewrite <- E.
  unfold digitsValue. rewrite digitsValueFrom_app.
  fold (digitsValue (digitsOf whole)). rewrite digitsValue_digitsOf.
  assert (H1 : (cents / 10 < 10)%N) by (apply N.Div0.div_lt_upper_bound; lia).
  assert (H2 : (cents mod 10 < 10)%N) by (apply N.mod_lt; lia).
  unfold twoDigits. cbn [digitsValueFrom]. rewrite (digitVal_digitChar _ H1).
  cbn [digitsValueFrom]. rewrite (digitVal_digitChar _ H2).
  cbn [option_map List.length]. do 2 f_equal.
  pose proof (N.div_mod cents 10). lia.
Qed.

Lemma printed_plain (neg : bool) (whole cents : N) :
  (cents < 100)%N ->
  Forall (fun c => plainNumeric c = true)
    ((if neg then ["-"%char] else []) ++ digitsOf whole ++ "."%char :: twoDigits cents).
Proof.
  intros Hc. apply Forall_app. split; [destruct neg; repeat constructor|].
  apply Forall_app. split.
  - eapply Forall_impl; [|apply digitsOfFuel_digits]. intros c. apply isDigit_plain.
  - constructor; [reflexivity|]. unfold twoDigits.
    constructor; [|constructor; [|constructor]]; apply isDigit_plain, isDigit_digitChar.
    + apply N.Div0.div_lt_upper_bound. lia.
    + apply N.mod_lt. lia.
Qed.

(** What [format()] prints under [NORDIGEN_CURRENCY], [parse] reads back:
    the balance string carried from one transaction to the next loses
    nothing. *)
Lemma parse_format (c : option Z) :
  nordigenCurrency (format NORDIGEN_CURRENCY c) = c.
Proof.
  unfold nordigenCurrency, parse, format, chars, text.
  rewrite list_ascii_of_string_of_list_ascii.
  destruct c as [z|]; [|reflexivity].
  unfold formatChars. simpl symbol. simpl separator. simpl decimal.
  change (chars "") with (@nil ascii). rewrite groupDigits_nil. simpl app at 2.
  set (a := Z.abs_N z).
  assert (Hc : (a mod 100 < 100)%N) by (apply N.mod_lt; lia).
  assert (Hs : (if 0 <=? z then [] else ["-"%char]) = (if negb (0 <=? z) then ["-"%char] else []))
    by now destruct (0 <=? z).
  rewrite Hs.
  pose proof (printed_plain (negb (0 <=? z)) (a / 100) (a mod 100) Hc) as Hp.
  pose proof (toNumber_printed (negb (0 <=? z)) (a / 100) (a mod 100) Hc) as Ht.
  set (printed := (if negb (0 <=? z) then ["-"%char] else []) ++ _) in *.
  clearbody printed.
  rewrite (replaceParens_plain _ Hp), (keepNumeric_plain _ Hp).
  destruct printed as [|c0 l0]; [discriminate Ht|].
  rewrite Ht.
  simpl option_map. rewrite roundToMinor_cents. f_equal.
  assert (Ha : (a / 100 * 100 + a mod 100)%N = a).
  { pose proof (N.div_mod a 100). lia. }
  rewrite Ha. subst a. destruct (Z.leb_spec 0 z); simpl; lia.
Qed.

(** ** The cumulative-balance map *)

Lemma nth_error_middle {A : Type} (pre : list A) (x : A) (post : list A) :
  nth_error (pre ++ x :: post) (List.length pre) = Some x.
Proof. induction pre as [|a pre IH]; [reflexivity | exact IH]. Qed.

Lemma mapFrom_length (transactions rest : list RawTransaction) : forall currentBalance index,
  List.length (mapFrom transactions currentBalance index rest) = List.length rest.
Proof.
  induction rest as [|t rest IH]; intros cb index; [reflexivity|].
  cbn [mapFrom mapTransaction List.length]. now rewrite IH.
Qed.

Lemma mapFrom_weights (transactions rest : list RawTransaction) : forall currentBalance index,
  map weight (mapFrom transactions currentBalance index rest) = seq index (List.length rest).
Proof.
  induction rest as [|t rest IH]; intros cb index; [reflexivity|].
  cbn [mapFrom mapTransaction map List.length seq weight]. now rewrite IH.
Qed.


Lemma mapFrom_balances (transactions rest : list RawTransaction) :
  forall pre prev currentBalance,
  transactions = pre ++ prev :: rest ->
  map totalAmountInt (mapFrom transactions currentBalance (S (List.length pre)) rest) =
  runningBalances
    (subtract NORDIGEN_CURRENCY (nordigenCurrency currentBalance) (transactionAmount prev)) rest.
Proof.
  induction rest as [|t rest IH]; intros pre prev cb Htx; [reflexivity|].
  cbn [mapFrom mapTransaction map runningBalances totalAmountInt Nat.eqb].
  replace (S (List.length pre) - 1)%nat with (List.length pre) by lia.
  rewrite Htx at 1. rewrite nth_error_middle. rewrite parse_format. f_equal.
  specialize (IH (pre ++ [prev]) t
    (format NORDIGEN_CURRENCY
       (subtract NORDIGEN_CURRENCY (nordigenCurrency cb) (transactionAmount prev)))).
  rewrite length_app, Nat.add_1_r in IH. rewrite parse_format in IH.
  rewrite <- IH.
  - rewrite Htx at 2. rewrite nth_error_middle. reflexivity.
  - rewrite <- app_assoc. exact Htx.
Qed.

(** The map computes the recurrence of the data model. *)
Lemma mapCumulativeBalance_balances (transactions : list RawTransaction) (currentBalance : string) :
  map totalAmountInt (mapCumulativeBalance transactions currentBalance) =
  runningBalances (nordigenCurrency currentBalance) transactions.
Proof.
  unfold mapCumulativeBalance. destruct transactions as [|t rest]; [reflexivity|].
  cbn [mapFrom mapTransaction map runningBalances totalAmountInt Nat.eqb]. f_equal.
  exact (mapFrom_balances (t :: rest) rest [] t currentBalance eq_refl).
Qed.



(** Every mapped transaction sits at the index its [weight] names. *)
Lemma mapCumulativeBalance_weight (transactions : list RawTransaction) (currentBalance : string)
    (m : MappedTransaction) :
  In m (mapCumulativeBalance transactions currentBalance) ->
  nth_error (mapCumulativeBalance transactions currentBalance) (weight m) = Some m.
Proof.
  intros Hin. destruct (In_nth_error _ _ Hin) as [k Hk].
  assert (Hw : nth_error (map weight (mapCumulativeBalance transactions currentBalance)) k
               = Some (weight m)) by (rewrite nth_error_map, Hk; reflexivity).
  unfold mapCumulativeBalance in Hw. rewrite mapFrom_weights in Hw.
  rewrite nth_error_seq in Hw.
  destruct (k <? List.length transactions)%nat; [|discriminate].
  injection Hw as <-. exact Hk.
Qed.

Lemma mapCumulativeBalance_distinct (transactions : list RawTransaction) (currentBalance : string) :
  NoDup (map weight (mapCumulativeBalance transactions currentBalance)).
Proof. unfold mapCumulativeBalance. rewrite mapFrom_weights. apply seq_NoDup. Qed.

(** ** The filtering stages keep a part of their input *)

Lemma distinct_filter (keep : MappedTransaction -> bool) (l : list MappedTransaction) :
  NoDup (map weight l) -> NoDup (map weight (filter keep l)).
Proof.
  induction l as [|m l IH]; intros Hnd; [constructor|].
  cbn [map] in Hnd. apply NoDup_cons_iff in Hnd. destruct Hnd as [Hnotin Hnd].
  cbn [filter]. destruct (keep m); [|now apply IH].
  cbn [map]. constructor; [|now apply IH].
  intros Hin. apply Hnotin. apply in_map_iff in Hin. destruct Hin as [x [Hx Hin]].
  apply in_map_iff. exists x. split; [exact Hx|]. now apply filter_In in Hin.
Qed.

Lemma insertByScore_perm (r : Z * MappedTransaction) (rs : list (Z * MappedTransaction)) :
  Permutation (insertByScore r rs) (r :: rs).
Proof.
  induction rs as [|r' rs IH]; [apply Permutation_refl|].
  cbn [insertByScore]. destruct (fst r' <=? fst r); [apply Permutation_refl|].
  eapply perm_trans; [apply perm_skip, IH | apply perm_swap].
Qed.

(** The search returns the matching objects, each once. *)
Lemma fuzzysortGo_perm (search : string) (targets : list MappedTransaction) :
  Permutation (map snd (fuzzysortGo search targets)) (filter (matched search) targets).
Proof.
  induction targets as [|obj targets IH]; [apply Permutation_refl|].
  cbn [fuzzysortGo filter]. unfold matched at 1.
  destruct (scoreTarget search obj) as [score|]; [|exact IH].
  eapply perm_trans.
  - apply Permutation_map, insertByScore_perm.
  - cbn [map snd]. now apply perm_skip.
Qed.

Lemma applyFuzzysort_incl (search : option string) (l : list MappedTransaction) :
  incl (applyFuzzysort search l) l.
Proof.
  unfold applyFuzzysort. destruct search as [s|]; [|apply incl_refl].
  destruct (truthy (Some s)); [|apply incl_refl].
  intros m Hin. apply (Permutation_in _ (fuzzysortGo_perm s l)) in Hin.
  now apply filter_In in Hin.
Qed.

Lemma applyFuzzysort_distinct (search : option string) (l : list MappedTransaction) :
  NoDup (map weight l) -> NoDup (map weight (applyFuzzysort search l)).
Proof.
  intros Hnd. unfold applyFuzzysort. destruct search as [s|]; [|exact Hnd].
  destruct (truthy (Some s)); [|exact Hnd].
  eapply Permutation_NoDup.
  - apply Permutation_sym, Permutation_map, fuzzysortGo_perm.
  - now apply distinct_filter.
Qed.

Lemma applyIntervalFiltering_incl (from to : option string) (l : list MappedTransaction) :
  incl (applyIntervalFiltering from to l) l.
Proof.
  unfold applyIntervalFiltering.
  destruct from as [f|], to as [t|]; try apply incl_refl.
  destruct (truthy (Some f) && truthy (Some t)); [apply incl_filter | apply incl_refl].
Qed.

Lemma applyIntervalFiltering_distinct (from to : option string) (l : list MappedTransaction) :
  NoDup (map weight l) -> NoDup (map weight (applyIntervalFiltering from to l)).
Proof.
  intros Hnd. unfold applyIntervalFiltering.
  destruct from as [f|], to as [t|]; try exact Hnd.
  destruct (truthy (Some f) && truthy (Some t)); [now apply distinct_filter | exact Hnd].
Qed.

(** ** The categorisation loop *)

Lemma categorizeLoop_returns (category : option string) (l : list MappedTransaction) :
  forall acc,
  (forall t, In t l -> classifies t) ->
  categorizeLoop category l acc = Ok (acc ++ flat_map (pushed category) l).
Proof.
  induction l as [|t l IH]; intros acc Hall.
  - cbn. now rewrite app_nil_r.
  - destruct (Hall t (or_introl eq_refl)) as [c Hc].
    cbn [categorizeLoop flat_map]. unfold pushed at 1. rewrite Hc. cbn [bind].
    destruct (categoryPasses category c).
    + rewrite IH by (intros t' Ht'; apply Hall; now right).
      now rewrite <- app_assoc.
    + rewrite IH by (intros t' Ht'; apply Hall; now right). reflexivity.
Qed.

Lemma categorizeLoop_returned (category : option string) (l : list MappedTransaction) :
  forall acc out,
  categorizeLoop category l acc = Ok out ->
  (forall t, In t l -> classifies t) /\ out = acc ++ flat_map (pushed category) l.
Proof.
  induction l as [|t l IH]; intros acc out Hrun.
  - cbn in Hrun. injection Hrun as <-. split; [intros t []|]. cbn. now rewrite app_nil_r.
  - cbn [categorizeLoop] in Hrun. destruct (classify (title t)) as [c|e] eqn:Hc; [|discriminate].
    cbn [bind] in Hrun.
    assert (Hrest : exists acc', categorizeLoop category l acc' = Ok out /\
                                 acc' = acc ++ pushed category t).
    { unfold pushed. rewrite Hc. destruct (categoryPasses category c).
      - eexists. split; [exact Hrun | reflexivity].
      - eexists. split; [exact Hrun | now rewrite app_nil_r]. }
    destruct Hrest as [acc' [Hrun' ->]]. destruct (IH _ _ Hrun') as [Hall ->]. split.
    + intros t' [<-|Hin]; [now exists c | now apply Hall].
    + cbn [flat_map]. now rewrite <- app_assoc.
Qed.


Lemma pushed_transactions (category : option string) (l : list MappedTransaction) :
  map transaction (flat_map (pushed category) l) = filter (retained category) l.
Proof.
  induction l as [|t l IH]; [reflexivity|].
  cbn [flat_map filter]. rewrite map_app, IH. unfold pushed, retained.
  destruct (classify (title t)) as [c|e]; [|reflexivity].
  now destruct (categoryPasses category c).
Qed.

Lemma in_pushed (wanted : option string) (l : list MappedTransaction)
    (x : CategorizedTransaction) :
  In x (flat_map (pushed wanted) l) <->
  In (transaction x) l /\ classify (title (transaction x)) = Ok (category x)
  /\ categoryPasses wanted (category x) = true.
Proof.
  rewrite in_flat_map. split.
  - intros [t [Hin Hx]]. unfold pushed in Hx.
    destruct (classify (title t)) as [c|e] eqn:Hc; [|destruct Hx].
    destruct (categoryPasses wanted c) eqn:Hp; [|destruct Hx].
    destruct Hx as [<-|[]]. cbn. auto.
  - intros [Hin [Hc Hp]]. exists (transaction x). split; [exact Hin|].
    unfold pushed. rewrite Hc, Hp. left. now destruct x.
Qed.

(** ** The sort by weight *)

Lemma insertByWeight_perm (c : CategorizedTransaction) (cs : list CategorizedTransaction) :
  Permutation (insertByWeight c cs) (c :: cs).
Proof.
  induction cs as [|c' cs IH]; [apply Permutation_refl|].
  cbn [insertByWeight]. destruct (weightOf c <=? weightOf c')%nat; [apply Permutation_refl|].
  eapply perm_trans; [apply perm_skip, IH | apply perm_swap].
Qed.

Lemma sortByWeight_perm (cs : list CategorizedTransaction) :
  Permutation (sortByWeight cs) cs.
Proof.
  induction cs as [|c cs IH]; [apply Permutation_refl|].
  cbn [sortByWeight]. eapply perm_trans; [apply insertByWeight_perm | now apply perm_skip].
Qed.

Lemma insertByWeight_ascending (c : CategorizedTransaction) (cs : list CategorizedTransaction) :
  ascending cs -> ascending (insertByWeight c cs).
Proof.
  unfold ascending. induction cs as [|c' cs IH]; intros Hs.
  - cbn. constructor; constructor.
  - apply StronglySorted_inv in Hs. destruct Hs as [Hs Hall].
    cbn [insertByWeight]. destruct (Nat.leb_spec (weightOf c) (weightOf c')) as [Hle|Hgt].
    + constructor; [now constructor|]. constructor; [exact Hle|].
      eapply Forall_impl; [|exact Hall]. intros a Ha. cbn in Ha. lia.
    + constructor; [now apply IH|].
      apply Forall_forall. intros a Ha.
      apply (Permutation_in _ (insertByWeight_perm c cs)) in Ha.
      destruct Ha as [<-|Ha]; [lia|].
      rewrite Forall_forall in Hall. now apply Hall.
Qed.

Lemma sortByWeight_ascending (cs : list CategorizedTransaction) : ascending (sortByWeight cs).
Proof.
  induction cs as [|c cs IH]; [constructor|].
  cbn [sortByWeight]. now apply insertByWeight_ascending.
Qed.

Lemma ascending_distinct_strict (cs : list CategorizedTransaction) :
  ascending cs -> NoDup (map weightOf cs) -> strictlyAscending cs.
Proof.
  unfold ascending, strictlyAscending. induction cs as [|c cs IH]; intros Hs Hnd; [constructor|].
  apply StronglySorted_inv in Hs. destruct Hs as [Hs Hall].
  cbn [map] in Hnd. apply NoDup_cons_iff in Hnd. destruct Hnd as [Hnotin Hnd].
  constructor; [now apply IH|].
  rewrite Forall_forall in *. intros a Ha.
  specialize (Hall a Ha). cbn in Hall.
  assert (weightOf a <> weightOf c).
  { intros Heq. apply Hnotin. rewrite <- Heq. now apply in_map. }
  lia.
Qed.

(** ** The stages put together *)

Lemma searchedAndFiltered_incl transactions currentBalance search from to :
  incl (searchedAndFiltered transactions currentBalance search from to)
       (mapCumulativeBalance transactions currentBalance).
Proof.
  unfold searchedAndFiltered.
  eapply incl_tran; [apply applyIntervalFiltering_incl | apply applyFuzzysort_incl].
Qed.

Lemma searchedAndFiltered_distinct transactions currentBalance search from to :
  NoDup (map weight (searchedAndFiltered transactions currentBalance search from to)).
Proof.
  unfold searchedAndFiltered.
  apply applyIntervalFiltering_distinct, applyFuzzysort_distinct, mapCumulativeBalance_distinct.
Qed.

Lemma enrich_returned transactions currentBalance search wanted from to out :
  enrich transactions currentBalance search wanted from to = Ok out ->
  (forall t, In t (searchedAndFiltered transactions currentBalance search from to) -> classifies t)
  /\ out = sortByWeight
             (flat_map (pushed wanted)
                (searchedAndFiltered transactions currentBalance search from to)).
Proof.
  unfold enrich, applyCategorization. fold (searchedAndFiltered transactions currentBalance search from to).
  intros Hrun.
  destruct (categorizeLoop wanted _ []) as [cats|e] eqn:Hloop; [|discriminate].
  cbn [bind] in Hrun. injection Hrun as <-.
  destruct (categorizeLoop_returned _ _ _ _ Hloop) as [Hall ->]. now split.
Qed.



(** Every element of the output is a mapped transaction with the label the
    classifier gave its title. *)
Lemma enrich_member transactions currentBalance search wanted from to out x :
  enrich transactions currentBalance search wanted from to = Ok out ->
  In x out ->
  In (transaction x) (mapCumulativeBalance transactions currentBalance)
  /\ classify (title (transaction x)) = Ok (category x).
Proof.
  intros Hrun Hin. destruct (enrich_returned _ _ _ _ _ _ _ Hrun) as [_ ->].
  apply (Permutation_in _ (sortByWeight_perm _)) in Hin.
  apply in_pushed in Hin. destruct Hin as [Hin [Hc _]].
  split; [|exact Hc]. now apply searchedAndFiltered_incl in Hin.
Qed.

Lemma enrich_distinct transactions currentBalance search wanted from to out :
  enrich transactions currentBalance search wanted from to = Ok out ->
  NoDup (map weightOf out).
Proof.
  intros Hrun. destruct (enrich_returned _ _ _ _ _ _ _ Hrun) as [_ ->].
  eapply Permutation_NoDup.
  - apply Permutation_sym, Permutation_map, sortByWeight_perm.
  - unfold weightOf. rewrite <- (map_map transaction weight), pushed_transactions.
    apply distinct_filter, searchedAndFiltered_distinct.
Qed.

Lemma insertByWeight_first (c : CategorizedTransaction) (cs : list CategorizedTransaction) :
  Forall (fun b => (weightOf c <= weightOf b)%nat) cs -> insertByWeight c cs = c :: cs.
Proof.
  destruct cs as [|c' cs]; [reflexivity|]. intros Hall.
  apply Forall_inv in Hall. cbn [insertByWeight].
  apply Nat.leb_le in Hall. now rewrite Hall.
Qed.

(** Sorting a list that is in order changes nothing. *)
Lemma sortByWeight_ascending_id (cs : list CategorizedTransaction) :
  ascending cs -> sortByWeight cs = cs.
Proof.
  unfold ascending. induction 1 as [|c cs Hs IH Hall]; [reflexivity|].
  cbn [sortByWeight]. rewrite IH. now apply insertByWeight_first.
Qed.

Lemma ascending_of_seq (cs : list CategorizedTransaction) : forall start len,
  map weightOf cs = seq start len -> ascending cs.
Proof.
  unfold ascending. induction cs as [|c cs IH]; intros start len Hw; [constructor|].
  destruct len as [|len]; [discriminate|]. cbn [map seq] in Hw. injection Hw as Hc Hcs.
  constructor; [exact (IH _ _ Hcs)|].
  apply Forall_forall. intros b Hb.
  assert (Hin : In (weightOf b) (seq (S start) len)) by (rewrite <- Hcs; now apply in_map).
  apply in_seq in Hin. lia.
Qed.

(** Without any filter the output is the mapped list, labelled. *)
Lemma enrich_unfiltered transactions currentBalance out :
  enrich transactions currentBalance None None None None = Ok out ->
  map transaction out = mapCumulativeBalance transactions currentBalance.
Proof.
  intros Hrun. destruct (enrich_returned _ _ _ _ _ _ _ Hrun) as [Hall ->].
  change (searchedAndFiltered transactions currentBalance None None None)
    with (mapCumulativeBalance transactions currentBalance) in *.
  assert (Hkept : map transaction
                    (flat_map (pushed None) (mapCumulativeBalance transactions currentBalance))
                  = mapCumulativeBalance transactions currentBalance).
  { rewrite pushed_transactions. apply forallb_filter_id.
    apply forallb_forall. intros t Ht. destruct (Hall t Ht) as [c Hc].
    unfold retained. now rewrite Hc. }
  rewrite sortByWeight_ascending_id; [exact Hkept|].
  apply (ascending_of_seq _ 0%nat (List.length transactions)).
  unfold weightOf. rewrite <- (map_map transaction weight), Hkept.
  unfold mapCumulativeBalance. apply mapFrom_weights.
Qed.

(** Without a linked account the handler answers 403; with one, it runs the
    stages on the first balance. *)
Lemma getAccountTransactions_forbidden {Account : Type} booked balances search wanted from to :
  getAccountTransactions (@nil Account) booked balances search wanted from to
  = Throw (ServerError 403).
Proof. reflexivity. Qed.

Lemma getAccountTransactions_enrich {Account : Type} (account : Account) accounts
    booked currentBalance balances search wanted from to :
  getAccountTransactions (account :: accounts) booked (currentBalance :: balances)
    search wanted from to
  = enrich booked currentBalance search wanted from to.
Proof. reflexivity. Qed.

(** ** Days *)



Lemma filter_Subsequence {A : Type} (keep : A -> bool) (l : list A) :
  Subsequence (filter keep l) l.
Proof.
  induction l as [|a l IH]; [constructor|].
  cbn [filter]. destruct (keep a); now constructor.
Qed.

Lemma Subsequence_refl {A : Type} (l : list A) : Subsequence l l.
Proof. induction l; now constructor. Qed.

(** ** The claims *)


(** C2 (filter noninterference on balances). Whatever the search text, the
    date bounds and the category filter are, every transaction of the output
    is also in the output of the run without any filter, sits in the complete
    mapped list at the index its weight names, and carries the balance the
    unfiltered run gives the transaction of that weight. *)
Theorem filter_noninterference (transactions : list RawTransaction) (currentBalance : string)
    (search wanted from to : option string) (out unfiltered : list CategorizedTransaction) :
  enrich transactions currentBalance search wanted from to = Ok out ->
  enrich transactions currentBalance None None None None = Ok unfiltered ->
  forall x, In x out ->
    In x unfiltered /\
    nth_error (mapCumulativeBalance transactions currentBalance) (weightOf x)
      = Some (transaction x) /\
    (forall y, In y unfiltered -> weightOf y = weightOf x ->
       totalAmountInt (transaction y) = totalAmountInt (transaction x) /\
       totalAmount (transaction y) = totalAmount (transaction x)).
Proof.
  intros Hrun Hplain x Hin.
  destruct (enrich_member _ _ _ _ _ _ _ _ Hrun Hin) as [Hmapped Hlabel].
  pose proof (mapCumulativeBalance_weight _ _ _ Hmapped) as Hnth.
  split; [|split].
  - destruct (enrich_returned _ _ _ _ _ _ _ Hplain) as [_ ->].
    apply (Permutation_in _ (Permutation_sym (sortByWeight_perm _))).
    apply in_pushed. split; [exact Hmapped | split; [exact Hlabel | reflexivity]].
  - exact Hnth.
  - intros y Hy Hw.
    destruct (enrich_member _ _ _ _ _ _ _ _ Hplain Hy) as [Hymapped _].
    pose proof (mapCumulativeBalance_weight _ _ _ Hymapped) as Hynth.
    unfold weightOf in Hw. rewrite Hw, Hnth in Hynth. injection Hynth as <-. now split.
Qed.


(** C4 (search identity). When the search text is absent or empty the search
    step returns its input unchanged. *)
Theorem search_identity (search : option string) (mappedTransactions : list MappedTransaction) :
  search = None \/ search = Some "" ->
  applyFuzzysort search mappedTransactions = mappedTransactions.
Proof. intros [-> | ->]; reflexivity. Qed.

(** C5 (date filter is all-or-nothing). If the from bound or the to bound is
    absent, also when the other one is given, the interval step returns its
    input unchanged. *)
Theorem date_filter_all_or_nothing (from to : option string)
    (mappedTransactions : list MappedTransaction) :
  from = None \/ to = None ->
  applyIntervalFiltering from to mappedTransactions = mappedTransactions.
Proof. intros [-> | ->]; [reflexivity | now destruct from]. Qed.


(** C7 (category filter exactness). When every title gets a label, the
    categorisation returns; each returned transaction is one of the input and
    carries the label the classifier gave its title; under a non-empty
    category filter a transaction is returned exactly when its label equals
    the filter as a string; without a filter all are returned. *)
Theorem category_filter_exactness (wanted : option string)
    (mappedTransactions : list MappedTransaction) :
  (forall t, In t mappedTransactions -> classifies t) ->
  exists out,
    applyCategorization wanted mappedTransactions = Ok out /\
    (forall x, In x out ->
       In (transaction x) mappedTransactions
       /\ classify (title (transaction x)) = Ok (category x)) /\
    (forall c, wanted = Some c -> c <> "" ->
       forall t lab, In t mappedTransactions -> classify (title t) = Ok lab ->
         (In {| transaction := t; category := lab |} out <-> lab = c)) /\
    (wanted = None -> map transaction out = mappedTransactions) /\
    Subsequence (map transaction out) mappedTransactions.
Proof.
  intros Hall. exists (flat_map (pushed wanted) mappedTransactions).
  split; [exact (categorizeLoop_returns wanted mappedTransactions [] Hall)|].
  split; [|split; [|split]].
  - intros x Hin. apply in_pushed in Hin. tauto.
  - intros c -> Hc t lab Hin Hlab. rewrite in_pushed. cbn [transaction category].
    unfold categoryPasses, truthy.
    destruct (String.eqb_spec c "") as [|_]; [contradiction|]. cbn [negb orb].
    split.
    + intros [_ [_ Heq]]. symmetry. now apply String.eqb_eq.
    + intros ->. split; [exact Hin | split; [exact Hlab | apply String.eqb_refl]].
  - intros ->. rewrite pushed_transactions. apply forallb_filter_id.
    apply forallb_forall. intros t Ht. destruct (Hall t Ht) as [c Hc].
    unfold retained. now rewrite Hc.
  - rewrite pushed_transactions. apply filter_Subsequence.
Qed.



Lemma categorizeLoop_empty_filter (l : list MappedTransaction) : forall acc,
  categorizeLoop (Some "") l acc = categorizeLoop None l acc.
Proof.
  induction l as [|t l IH]; intros acc; [reflexivity|].
  cbn [categorizeLoop]. destruct (classify (title t)) as [c|e]; [|reflexivity].
  cbn [bind]. change (categoryPasses (Some "") c) with true.
  change (categoryPasses None c) with true. cbn iota. apply IH.
Qed.

(** C10 (empty-string category filter). The empty string as category filter
    behaves as no category filter: the categorisation and the whole run give
    the same result, and a returned result holds every transaction handed
    to the categorisation. *)
Theorem empty_category_disables_filter (transactions : list RawTransaction)
    (currentBalance : string) (search from to : option string)
    (mappedTransactions : list MappedTransaction) :
  applyCategorization (Some "") mappedTransactions = applyCategorization None mappedTransactions /\
  enrich transactions currentBalance search (Some "") from to
    = enrich transactions currentBalance search None from to /\
  (forall out, applyCategorization (Some "") mappedTransactions = Ok out ->
     map transaction out = mappedTransactions).
Proof.
  split; [apply categorizeLoop_empty_filter | split].
  - unfold enrich, applyCategorization. now rewrite categorizeLoop_empty_filter.
  - intros out Hrun. unfold applyCategorization in Hrun.
    destruct (categorizeLoop_returned _ _ _ _ Hrun) as [Hall ->].
    cbn [app]. rewrite pushed_transactions. apply forallb_filter_id.
    apply forallb_forall. intros t Ht. destruct (Hall t Ht) as [c Hc].
    unfold retained. now rewrite Hc.
Qed.

(** ** Further results on the transactions pipeline *)






(** Each mapped object next to the transaction it was built from. *)
Lemma mapFrom_fields (transactions rest : list RawTransaction) : forall currentBalance index,
  Forall2 (fun t m =>
             id m = transactionId t
             /\ title m = first (remittanceInformationUnstructuredArray t)
             /\ date m = newDate (bookingDate t)
             /\ amount m = format FORMATTED_CURRENCY (nordigenCurrency (transactionAmount t))
             /\ totalAmount m = format FORMATTED_CURRENCY (totalAmountInt m))
          rest (mapFrom transactions currentBalance index rest).
Proof.
  induction rest as [|t rest IH]; intros cb index; [constructor|].
  cbn [mapFrom mapTransaction]. constructor; [cbn; repeat split | apply IH].
Qed.

Lemma Forall2_nth_error {A B : Type} (R : A -> B -> Prop) (l : list A) (l' : list B) :
  Forall2 R l l' ->
  forall i a b, nth_error l i = Some a -> nth_error l' i = Some b -> R a b.
Proof.
  induction 1 as [|x y l l' Hxy _ IH]; intros i a b Ha Hb; [destruct i; discriminate|].
  destruct i as [|i]; cbn in Ha, Hb; [congruence | eauto].
Qed.




Lemma runningBalances_nan (transactions : list RawTransaction) : forall i,
  (i < List.length transactions)%nat ->
  nth_error (runningBalances None transactions) i = Some None.
Proof.
  induction transactions as [|t rest IH]; intros i Hi; [cbn in Hi; lia|].
  destruct i as [|i]; [reflexivity|].
  cbn [runningBalances nth_error]. apply IH. cbn in Hi. lia.
Qed.

Lemma runningBalances_poisoned (transactions : list RawTransaction) :
  forall balance j i t,
  nth_error transactions j = Some t ->
  nordigenCurrency (transactionAmount t) = None ->
  (j < i < List.length transactions)%nat ->
  nth_error (runningBalances balance transactions) i = Some None.
Proof.
  induction transactions as [|t0 rest IH]; intros b j i t Hj Hnan Hi; [cbn in Hi; lia|].
  destruct i as [|i]; [lia|]. cbn [runningBalances nth_error].
  destruct j as [|j].
  - cbn in Hj. injection Hj as ->.
    assert (Hsub : subtract NORDIGEN_CURRENCY b (transactionAmount t) = None).
    { unfold subtract. fold (nordigenCurrency (transactionAmount t)). rewrite Hnan.
      now destruct b. }
    rewrite Hsub. apply runningBalances_nan. cbn in Hi. lia.
  - cbn [nth_error] in Hj. apply (IH _ j i t Hj Hnan). cbn in Hi. lia.
Qed.

(** X3 (an unreadable amount spoils the later balances). If the amount of
    one transaction is read as [NaN], or the current balance is, every
    later transaction (every transaction, for the balance) carries a [NaN]
    balance, displayed as [-NaN]. *)
Theorem nan_balance_propagates (transactions : list RawTransaction) (currentBalance : string)
    (i : nat) (m : MappedTransaction) :
  nth_error (mapCumulativeBalance transactions currentBalance) i = Some m ->
  nordigenCurrency currentBalance = None
  \/ (exists j t, (j < i)%nat /\ nth_error transactions j = Some t
                  /\ nordigenCurrency (transactionAmount t) = None) ->
  totalAmountInt m = None /\ totalAmount m = "-NaN".
Proof.
  intros Hm Hcause.
  assert (Hi : (i < List.length transactions)%nat).
  { rewrite <- (mapFrom_length transactions transactions currentBalance 0).
    apply nth_error_Some. unfold mapCumulativeBalance in Hm. congruence. }
  assert (Hnan : totalAmountInt m = None).
  { assert (Hr : nth_error (map totalAmountInt (mapCumulativeBalance transactions currentBalance)) i
                 = Some (totalAmountInt m)) by (rewrite nth_error_map, Hm; reflexivity).
    rewrite mapCumulativeBalance_balances in Hr.
    destruct Hcause as [Hb | [j [t [Hji [Hj Ht]]]]].
    - rewrite Hb, runningBalances_nan in Hr by exact Hi. congruence.
    - rewrite (runningBalances_poisoned _ _ j i t Hj Ht) in Hr by lia. congruence. }
  split; [exact Hnan|].
  destruct (nth_error transactions i) as [t|] eqn:Ht;
    [|apply nth_error_Some in Hi; contradiction].
  destruct (Forall2_nth_error _ _ _ (mapFrom_fields transactions transactions currentBalance 0)
              i t m Ht Hm) as [_ [_ [_ [_ Htotal]]]].
  rewrite Htotal, Hnan. reflexivity.
Qed.

Lemma filter_Permutation {A : Type} (keep : A -> bool) (l l' : list A) :
  Permutation l l' -> Permutation (filter keep l) (filter keep l').
Proof.
  induction 1 as [|x l l' _ IH|x y l|l l' l'' _ IH1 _ IH2]; cbn [filter].
  - apply Permutation_refl.
  - destruct (keep x); [now apply perm_skip | exact IH].
  - destruct (keep x), (keep y); try apply Permutation_refl. apply perm_swap.
  - eapply perm_trans; eassumption.
Qed.

Lemma filter_twice {A : Type} (p q : A -> bool) (l : list A) :
  filter q (filter p l) = filter (fun x => p x && q x) l.
Proof.
  induction l as [|a l IH]; [reflexivity|].
  cbn [filter]. destruct (p a); cbn [filter andb]; [|exact IH].
  destruct (q a); now rewrite IH.
Qed.

Lemma applyFuzzysort_perm (search : option string) (l : list MappedTransaction) :
  Permutation (applyFuzzysort search l) (filter (searchPasses search) l).
Proof.
  unfold applyFuzzysort, searchPasses. destruct search as [s|].
  - destruct (truthy (Some s)); [apply fuzzysortGo_perm|].
    rewrite filter_true. apply Permutation_refl.
  - rewrite filter_true. apply Permutation_refl.
Qed.

Lemma applyIntervalFiltering_filter (from to : option string) (l : list MappedTransaction) :
  applyIntervalFiltering from to l = filter (intervalPasses from to) l.
Proof.
  unfold applyIntervalFiltering, intervalPasses.
  destruct from as [f|], to as [t|]; try (now rewrite filter_true).
  destruct (truthy (Some f) && truthy (Some t)); [reflexivity | now rewrite filter_true].
Qed.

Lemma searchedAndFiltered_perm transactions currentBalance search from to :
  Permutation (searchedAndFiltered transactions currentBalance search from to)
    (filter (fun m => searchPasses search m && intervalPasses from to m)
       (mapCumulativeBalance transactions currentBalance)).
Proof.
  unfold searchedAndFiltered. rewrite applyIntervalFiltering_filter, <- filter_twice.
  apply filter_Permutation, applyFuzzysort_perm.
Qed.

(** Two lists in strictly ascending order of a key that hold the same
    elements are the same list. *)
Lemma ascending_perm_eq {A : Type} (key : A -> nat) (l1 : list A) : forall l2,
  StronglySorted (fun a b => (key a < key b)%nat) l1 ->
  StronglySorted (fun a b => (key a < key b)%nat) l2 ->
  Permutation l1 l2 -> l1 = l2.
Proof.
  induction l1 as [|a l1 IH]; intros l2 Hs1 Hs2 Hperm.
  - apply Permutation_nil in Hperm. now subst.
  - destruct l2 as [|b l2]; [apply Permutation_sym, Permutation_nil in Hperm; discriminate|].
    apply StronglySorted_inv in Hs1. destruct Hs1 as [Hs1 Hall1].
    apply StronglySorted_inv in Hs2. destruct Hs2 as [Hs2 Hall2].
    rewrite Forall_forall in Hall1, Hall2.
    assert (Hab : a = b).
    { assert (Ha : In a (b :: l2)) by (apply (Permutation_in _ Hperm); now left).
      assert (Hb : In b (a :: l1)) by (apply (Permutation_in _ (Permutation_sym Hperm)); now left).
      destruct Ha as [Ha|Ha]; [now subst|]. destruct Hb as [Hb|Hb]; [now subst|].
      specialize (Hall1 b Hb). specialize (Hall2 a Ha). lia. }
    subst b. f_equal. apply IH; try assumption.
    now apply Permutation_cons_inv in Hperm.
Qed.

Lemma ascending_filter {A : Type} (key : A -> nat) (keep : A -> bool) (l : list A) :
  StronglySorted (fun a b => (key a < key b)%nat) l ->
  StronglySorted (fun a b => (key a < key b)%nat) (filter keep l).
Proof.
  induction 1 as [|a l Hs IH Hall]; [constructor|].
  cbn [filter]. destruct (keep a); [|exact IH].
  constructor; [exact IH|]. rewrite Forall_forall in *.
  intros b Hb. apply Hall. now apply filter_In in Hb.
Qed.

Lemma ascending_seq {A : Type} (key : A -> nat) (l : list A) : forall start len,
  map key l = seq start len -> StronglySorted (fun a b => (key a < key b)%nat) l.
Proof.
  induction l as [|a l IH]; intros start len Hk; [constructor|].
  destruct len as [|len]; [discriminate|]. cbn [map seq] in Hk. injection Hk as Ha Hl.
  constructor; [exact (IH _ _ Hl)|].
  apply Forall_forall. intros b Hb.
  assert (Hin : In (key b) (seq (S start) len)) by (rewrite <- Hl; now apply in_map).
  apply in_seq in Hin. lia.
Qed.

Lemma strictlyAscending_transactions (out : list CategorizedTransaction) :
  strictlyAscending out ->
  StronglySorted (fun a b => (weight a < weight b)%nat) (map transaction out).
Proof.
  unfold strictlyAscending. induction 1 as [|c cs Hs IH Hall]; [constructor|].
  cbn [map]. constructor; [exact IH|].
  rewrite Forall_forall in *. intros m Hm. apply in_map_iff in Hm.
  destruct Hm as [x [<- Hx]]. exact (Hall x Hx).
Qed.

(** X4 (the pipeline is one filter). Whatever the search reorders, the
    transactions of the output are exactly the mapped transactions that
    pass the search, the interval and the category test, in the provider's
    order, each with the label the classifier gave its title. *)
Theorem pipeline_normal_form (transactions : list RawTransaction) (currentBalance : string)
    (search wanted from to : option string) (out : list CategorizedTransaction) :
  enrich transactions currentBalance search wanted from to = Ok out ->
  map transaction out
  = filter (fun m => searchPasses search m && intervalPasses from to m && retained wanted m)
      (mapCumulativeBalance transactions currentBalance)
  /\ (forall x, In x out -> classify (title (transaction x)) = Ok (category x)).
Proof.
  intros Hrun. split; [|intros x Hx; exact (proj2 (enrich_member _ _ _ _ _ _ _ _ Hrun Hx))].
  apply (ascending_perm_eq weight).
  - apply strictlyAscending_transactions.
    apply ascending_distinct_strict; [|now apply enrich_distinct in Hrun].
    destruct (enrich_returned _ _ _ _ _ _ _ Hrun) as [_ ->]. apply sortByWeight_ascending.
  - apply ascending_filter. apply (ascending_seq weight _ 0%nat (List.length transactions)).
    unfold mapCumulativeBalance. apply mapFrom_weights.
  - destruct (enrich_returned _ _ _ _ _ _ _ Hrun) as [_ ->].
    eapply perm_trans; [apply Permutation_map, sortByWeight_perm|].
    rewrite pushed_transactions, <- filter_twice.
    apply filter_Permutation, searchedAndFiltered_perm.
Qed.

(** X5 (what a search returns). With a search text, every transaction of
    the output has a non-empty title whose fuzzysort score against the text
    is at least -400; transactions without a title never appear. *)
Theorem search_results_above_threshold (transactions : list RawTransaction)
    (currentBalance text : string) (wanted from to : option string)
    (out : list CategorizedTransaction) (x : CategorizedTransaction) :
  text <> "" ->
  enrich transactions currentBalance (Some text) wanted from to = Ok out ->
  In x out ->
  exists target score,
    title (transaction x) = Some target /\ target <> ""
    /\ fuzzyScore text target = Some score /\ -400 <= score.
Proof.
  intros Htext Hrun Hx.
  destruct (pipeline_normal_form _ _ _ _ _ _ _ Hrun) as [Hout _].
  assert (Hin : In (transaction x) (map transaction out)) by now apply in_map.
  rewrite Hout in Hin. apply filter_In in Hin. destruct Hin as [_ Hpass].
  apply andb_true_iff in Hpass. destruct Hpass as [Hpass _].
  apply andb_true_iff in Hpass. destruct Hpass as [Hsearch _].
  unfold searchPasses, truthy in Hsearch.
  destruct (String.eqb_spec text "") as [|_]; [contradiction|]. cbn [negb] in Hsearch.
  unfold matched, scoreTarget in Hsearch.
  destruct (title (transaction x)) as [target|] eqn:Htitle; [|discriminate].
  destruct (String.eqb_spec target "") as [|Hne]; [discriminate|].
  destruct (fuzzyScore text target) as [score|] eqn:Hscore; [|discriminate].
  destruct (Z.ltb_spec score threshold) as [|Hge]; [discriminate|].
  exists target, score. unfold threshold in Hge.
  split; [reflexivity | split; [exact Hne | split; [exact Hscore | exact Hge]]].
Qed.

(** X6 (dates that are no dates). With both bounds given, a bound that
    [new Date] cannot read empties the result without any failure, whatever
    the classifier does; and with readable bounds a transaction whose
    booking date cannot be read never appears. *)
Theorem unreadable_dates (transactions : list RawTransaction) (currentBalance : string)
    (search wanted : option string) (from to : string) :
  from <> "" -> to <> "" ->
  (newDate from = None \/ newDate to = None ->
   enrich transactions currentBalance search wanted (Some from) (Some to) = Ok []) /\
  (forall out x,
     enrich transactions currentBalance search wanted (Some from) (Some to) = Ok out ->
     In x out -> date (transaction x) <> None).
Proof.
  intros Hfrom Hto.
  assert (Hactive : forall m, intervalPasses (Some from) (Some to) m = inInterval from to m).
  { intros m. unfold intervalPasses, truthy.
    destruct (String.eqb_spec from "") as [|_]; [contradiction|].
    destruct (String.eqb_spec to "") as [|_]; [contradiction|]. reflexivity. }
  split.
  - intros Hbad. unfold enrich, applyCategorization.
    rewrite applyIntervalFiltering_filter.
    assert (Hnone : forall l, filter (intervalPasses (Some from) (Some to)) l = []).
    { induction l as [|m l IH]; [reflexivity|]. cbn [filter]. rewrite Hactive.
      unfold inInterval, startOfDay, endOfDay.
      destruct Hbad as [-> | ->]; cbn [option_map dateGe dateLe];
        destruct (date m); cbn; rewrite ?andb_false_r; exact IH. }
    rewrite Hnone. reflexivity.
  - intros out x Hrun Hx Hdate.
    destruct (pipeline_normal_form _ _ _ _ _ _ _ Hrun) as [Hout _].
    assert (Hin : In (transaction x) (map transaction out)) by now apply in_map.
    rewrite Hout in Hin. apply filter_In in Hin. destruct Hin as [_ Hpass].
    apply andb_true_iff in Hpass. destruct Hpass as [Hpass _].
    apply andb_true_iff in Hpass. destruct Hpass as [_ Hinterval].
    rewrite Hactive in Hinterval. unfold inInterval in Hinterval.
    rewrite Hdate in Hinterval. discriminate.
Qed.

(** X7 (nothing lost, nothing doubled). A run without filters returns the
    transactions with the weights 0, 1, ..., n-1 in this order; a run with
    any filters returns at most as many transactions as it was given. *)
Theorem output_size (transactions : list RawTransaction) (currentBalance : string)
    (search wanted from to : option string) :
  (forall out,
     enrich transactions currentBalance None None None None = Ok out ->
     map weightOf out = seq 0 (List.length transactions)) /\
  (forall out,
     enrich transactions currentBalance search wanted from to = Ok out ->
     (List.length out <= List.length transactions)%nat).
Proof.
  split.
  - intros out Hrun. unfold weightOf. rewrite <- (map_map transaction weight).
    rewrite (enrich_unfiltered _ _ _ Hrun). unfold mapCumulativeBalance.
    apply mapFrom_weights.
  - intros out Hrun. destruct (pipeline_normal_form _ _ _ _ _ _ _ Hrun) as [Hout _].
    rewrite <- (length_map transaction out), Hout.
    rewrite <- (mapFrom_length transactions transactions currentBalance 0).
    apply filter_length_le.
Qed.

End Handler.

(** ** The classifier and the mocked user in the transactions handler *)

Lemma categorizeLoop_ext (g1 g2 : option string -> result (list Classification))
    (wanted : option string) (l : list MappedTransaction) : forall acc,
  (forall m, In m l -> g1 (title m) = g2 (title m)) ->
  categorizeLoop g1 wanted l acc = categorizeLoop g2 wanted l acc.
Proof.
  induction l as [|t l IH]; intros acc Hsame; [reflexivity|].
  cbn [categorizeLoop]. unfold classify. rewrite (Hsame t (or_introl eq_refl)).
  destruct (g2 (title t)) as [cs|e]; [|reflexivity]. cbn [bind].
  destruct (first cs) as [c|]; [|reflexivity]. cbn [bind].
  destruct (categoryPasses wanted (label c)); apply IH; intros m Hm; apply Hsame; now right.
Qed.

(** X8 (the classifier sees only what the filters keep). Two classifiers
    that agree on the titles of the transactions passing the search and the
    interval step give the same result: what a classifier does, or fails to
    do, on a dropped transaction has no effect on the request. *)
Theorem classifier_only_on_kept (newDate : string -> option Z) (timezoneOffset : Z)
    (fuzzyScore : string -> string -> option Z)
    (g1 g2 : option string -> result (list Classification))
    (transactions : list RawTransaction) (currentBalance : string)
    (search wanted from to : option string) :
  (forall m,
     In m (searchedAndFiltered newDate timezoneOffset fuzzyScore
             transactions currentBalance search from to) ->
     g1 (title m) = g2 (title m)) ->
  enrich newDate timezoneOffset fuzzyScore g1 transactions currentBalance search wanted from to
  = enrich newDate timezoneOffset fuzzyScore g2 transactions currentBalance search wanted from to.
Proof.
  intros Hsame. unfold enrich, applyCategorization.
  fold (searchedAndFiltered newDate timezoneOffset fuzzyScore
          transactions currentBalance search from to).
  now rewrite (categorizeLoop_ext g1 g2 wanted _ [] Hsame).
Qed.

(** X9 (the mocked user). For the mocked user the provider is never part of
    the answer: with a linked account the request is the pipeline on the
    mocked transactions and the balance 20000.00, whatever the two provider
    calls would return; and the first transaction of an unfiltered answer
    shows the balance [20.000,00], the text the account list shows for this
    user. *)
Theorem mocked_user_transactions (newDate : string -> option Z) (timezoneOffset : Z)
    (fuzzyScore : string -> string -> option Z)
    (getClassifications : option string -> result (list Classification))
    (MOCKED_USER_ID : string) (account : Db.UserAccount) (accounts : list Db.UserAccount)
    (mockedTransactions : list RawTransaction)
    (getNordigenAccountTransactions : string -> result (list RawTransaction))
    (getNordigenAccountBalances : string -> result (list string)) :
  (forall search wanted from to,
     getAccountTransactionsRequest newDate timezoneOffset fuzzyScore getClassifications
       MOCKED_USER_ID MOCKED_USER_ID (account :: accounts)
       getNordigenAccountTransactions getNordigenAccountBalances mockedTransactions
       search wanted from to
     = enrich newDate timezoneOffset fuzzyScore getClassifications
         mockedTransactions "20000.00" search wanted from to) /\
  (forall x out,
     getAccountTransactionsRequest newDate timezoneOffset fuzzyScore getClassifications
       MOCKED_USER_ID MOCKED_USER_ID (account :: accounts)
       getNordigenAccountTransactions getNordigenAccountBalances mockedTransactions
       None None None None
     = Ok (x :: out) ->
     totalAmount (transaction x) = "20.000,00"
     /\ totalAmountInt (transaction x) = Some 2000000).
Proof.
  assert (Hmock : forall search wanted from to,
    getAccountTransactionsRequest newDate timezoneOffset fuzzyScore getClassifications
       MOCKED_USER_ID MOCKED_USER_ID (account :: accounts)
       getNordigenAccountTransactions getNordigenAccountBalances mockedTransactions
       search wanted from to
     = enrich newDate timezoneOffset fuzzyScore getClassifications
         mockedTransactions "20000.00" search wanted from to).
  { intros. unfold getAccountTransactionsRequest. rewrite String.eqb_refl. reflexivity. }
  split; [exact Hmock|].
  intros x out Hrun. rewrite Hmock in Hrun.
  pose proof (enrich_unfiltered _ _ _ _ _ _ _ Hrun) as Hout.
  destruct mockedTransactions as [|t rest]; [discriminate Hout|].
  cbn [map] in Hout. unfold mapCumulativeBalance in Hout.
  cbn [mapFrom mapTransaction Nat.eqb] in Hout.
  injection Hout as Hx _. rewrite Hx. split; reflexivity.
Qed.

(** ** The authentication middleware *)

Lemma chars_append (a b : string) : chars (a ++ b)%string = chars a ++ chars b.
Proof.
  unfold chars. induction a as [|c a IH]; [reflexivity|].
  cbn. now rewrite IH.
Qed.

Lemma text_chars (s : string) : text (chars s) = s.
Proof. apply string_of_list_ascii_of_string. Qed.

Lemma splitPieces_without (sep : ascii) (l : list ascii) :
  Forall (fun c => isChar c sep = false) l -> Auth.splitPieces sep l = (l, []).
Proof.
  induction 1 as [|c l Hc _ IH]; [reflexivity|].
  cbn [Auth.splitPieces]. now rewrite IH, Hc.
Qed.

Lemma splitPieces_at (sep : ascii) (l rest : list ascii) :
  Forall (fun c => isChar c sep = false) l ->
  Auth.splitPieces sep (l ++ sep :: rest)
  = (l, fst (Auth.splitPieces sep rest) :: snd (Auth.splitPieces sep rest)).
Proof.
  induction 1 as [|c l Hc _ IH].
  - cbn [app Auth.splitPieces]. unfold isChar. rewrite Ascii.eqb_refl.
    now destruct (Auth.splitPieces sep rest).
  - cbn [app Auth.splitPieces]. now rewrite IH, Hc.
Qed.

(** The second piece of a header whose first word is followed by a space. *)
Lemma headerToken_second (scheme token trailer : string) :
  spaceless scheme -> spaceless token ->
  trailer = "" \/ (exists more, trailer = (" " ++ more)%string) ->
  Auth.headerToken (Some (scheme ++ " " ++ token ++ trailer)%string) = Some token.
Proof.
  intros Hscheme Htoken Htrailer. unfold Auth.headerToken, Auth.split.
  rewrite chars_append. change (chars (" " ++ token ++ trailer)%string)
    with (" "%char :: chars (token ++ trailer)%string).
  rewrite (splitPieces_at _ _ _ Hscheme). cbn [map nth_error]. f_equal.
  rewrite chars_append.
  destruct Htrailer as [-> | [more ->]].
  - change (chars "") with (@nil ascii). rewrite app_nil_r.
    rewrite (splitPieces_without _ _ Htoken). apply text_chars.
  - change (chars (" " ++ more)%string) with (" "%char :: chars more).
    rewrite (splitPieces_at _ _ _ Htoken). apply text_chars.
Qed.

(** X10 (the token is the second word). For a header made of a first word,
    one space and a non-empty word, whatever follows after a further space,
    [verifyUser] hands exactly the second word to [jwt.verify]: it proceeds
    with the payload's id when the token verifies and answers 401 when it
    does not; the first word is never looked at. *)
Theorem verifyUser_second_word {Id : Type} (jwtVerify : string -> result (Auth.JwtPayload Id))
    (scheme token trailer : string) :
  spaceless scheme -> spaceless token -> token <> "" ->
  trailer = "" \/ (exists more, trailer = (" " ++ more)%string) ->
  Auth.verifyUser jwtVerify (Some (scheme ++ " " ++ token ++ trailer)%string)
  = match jwtVerify token with
    | Ok tokenInfo => Ok (Auth.id tokenInfo)
    | Throw _ => Throw (ServerError 401)
    end.
Proof.
  intros Hscheme Htoken Hne Htrailer. unfold Auth.verifyUser.
  rewrite (headerToken_second _ _ _ Hscheme Htoken Htrailer).
  unfold truthy. destruct (String.eqb_spec token "") as [|_]; [contradiction | reflexivity].
Qed.

(** X11 (requests rejected before any verification). Without the header,
    with a header that holds no space, or with one whose first space is the
    last character or is followed by another space, [verifyUser] answers 401
    whatever [jwt.verify] would say. *)
Theorem verifyUser_rejects_without_token {Id : Type}
    (jwtVerify : string -> result (Auth.JwtPayload Id)) (authorization : option string) :
  authorization = None
  \/ (exists header, authorization = Some header /\ spaceless header)
  \/ (exists scheme trailer,
        authorization = Some (scheme ++ " " ++ trailer)%string /\ spaceless scheme
        /\ (trailer = "" \/ exists more, trailer = (" " ++ more)%string)) ->
  Auth.verifyUser jwtVerify authorization = Throw (ServerError 401).
Proof.
  intros [-> | [[header [-> Hheader]] | [scheme [trailer [-> [Hscheme Htrailer]]]]]].
  - reflexivity.
  - unfold Auth.verifyUser, Auth.headerToken, Auth.split.
    now rewrite (splitPieces_without _ _ Hheader).
  - assert (Htoken : Auth.headerToken (Some (scheme ++ " " ++ trailer)%string) = Some "").
    { apply (headerToken_second scheme "" trailer Hscheme); [constructor | exact Htrailer]. }
    unfold Auth.verifyUser. now rewrite Htoken.
Qed.

(** X12 (only 401). Whatever the header is and whatever [jwt.verify]
    throws, the only failure of [verifyUser] is a [ServerError] with status
    401. *)
Theorem verifyUser_only_401 {Id : Type} (jwtVerify : string -> result (Auth.JwtPayload Id))
    (authorization : option string) (e : exn) :
  Auth.verifyUser jwtVerify authorization = Throw e -> e = ServerError 401.
Proof.
  unfold Auth.verifyUser. destruct (Auth.headerToken authorization) as [t|].
  - destruct (negb (truthy (Some t))); [congruence|].
    destruct (jwtVerify t); congruence.
  - cbn. congruence.
Qed.

(** X13 (who gets transactions). The transactions route answers with
    transactions only when the header carries a non-empty token that
    verifies and the table holds a row for that token's user and the
    requested account; a header without a verifiable token is answered 401
    whatever the table, the provider and the classifier hold, and a verified
    user without such a row is answered 403. *)
Theorem transactions_need_token_and_link (newDate : string -> option Z) (timezoneOffset : Z)
    (fuzzyScore : string -> string -> option Z)
    (getClassifications : option string -> result (list Classification))
    (jwtVerify : string -> result (Auth.JwtPayload string))
    (authorization : option string) (MOCKED_USER_ID accountId : string)
    (getLinkedAccount : string -> string -> result (list Db.UserAccount))
    (getNordigenAccountTransactions : string -> result (list RawTransaction))
    (getNordigenAccountBalances : string -> result (list string))
    (mockedTransactions : list RawTransaction)
    (validation : result unit) (search wanted from to : option string) :
  let answer :=
    transactionsRoute newDate timezoneOffset fuzzyScore getClassifications
      jwtVerify authorization validation MOCKED_USER_ID accountId getLinkedAccount
      getNordigenAccountTransactions getNordigenAccountBalances mockedTransactions
      search wanted from to in
  (forall out, answer = Ok out ->
     exists token tokenInfo account others,
       Auth.headerToken authorization = Some token /\ token <> ""
       /\ jwtVerify token = Ok tokenInfo
       /\ getLinkedAccount (Auth.id tokenInfo) accountId = Ok (account :: others)) /\
  ((forall token tokenInfo,
      Auth.headerToken authorization = Some token -> jwtVerify token <> Ok tokenInfo) ->
   answer = Throw (ServerError 401)) /\
  (forall token tokenInfo,
     Auth.headerToken authorization = Some token -> token <> "" ->
     jwtVerify token = Ok tokenInfo -> validation = Ok tt ->
     getLinkedAccount (Auth.id tokenInfo) accountId = Ok [] ->
     answer = Throw (ServerError 403)).
Proof.
  cbv zeta. unfold transactionsRoute, Auth.verifyUser. split; [|split].
  - intros out. destruct (Auth.headerToken authorization) as [token|]; [|discriminate].
    unfold truthy. destruct (String.eqb_spec token "") as [|Hne]; [discriminate|]. cbn [negb].
    destruct (jwtVerify token) as [tokenInfo|e] eqn:Hverify; [|discriminate]. cbn [bind].
    destruct validation as [[]|e]; [|discriminate]. cbn [bind].
    destruct (getLinkedAccount (Auth.id tokenInfo) accountId) as [[|account others]|e] eqn:Hrow;
      cbn [bind]; try discriminate.
    intros _. exists token, tokenInfo, account, others. repeat split; assumption.
  - intros Hbad. destruct (Auth.headerToken authorization) as [token|]; [|reflexivity].
    destruct (negb (truthy (Some token))); [reflexivity|].
    destruct (jwtVerify token) as [tokenInfo|e] eqn:Hverify; [|reflexivity].
    now destruct (Hbad token tokenInfo eq_refl).
  - intros token tokenInfo -> Hne Hverify -> Hrow. unfold truthy.
    destruct (String.eqb_spec token "") as [|_]; [contradiction|]. cbn [negb].
    rewrite Hverify. cbn [bind]. rewrite Hrow. reflexivity.
Qed.

(** ** The account lists *)

Lemma forOfPush_returned {A B : Type} (body : A -> result B) (items : list A) :
  forall array out,
  forOfPush body items array = Ok out <->
  exists elements,
    Forall2 (fun item element => body item = Ok element) items elements
    /\ out = array ++ elements.
Proof.
  induction items as [|item rest IH]; intros array out; cbn [forOfPush].
  - split.
    + intros H. injection H as <-. exists []. split; [constructor | now rewrite app_nil_r].
    + intros [elements [Hall ->]]. inversion Hall. now rewrite app_nil_r.
  - destruct (body item) as [element|e] eqn:Hbody; cbn [bind].
    + rewrite IH. split.
      * intros [elements [Hall ->]]. exists (element :: elements).
        split; [now constructor | now rewrite <- app_assoc].
      * intros [elements [Hall ->]]. inversion Hall as [|? y ? ys Hy Hrest]; subst.
        assert (y = element) by congruence. subst y.
        exists ys. split; [exact Hrest | now rewrite <- app_assoc].
    + split; [discriminate|]. intros [elements [Hall _]].
      inversion Hall; subst. congruence.
Qed.

Lemma forOfPush_throws {A B : Type} (body : A -> result B) (items : list A) :
  forall array e,
  forOfPush body items array = Throw e <->
  exists before item after elements,
    items = before ++ item :: after
    /\ Forall2 (fun item element => body item = Ok element) before elements
    /\ body item = Throw e.
Proof.
  induction items as [|item rest IH]; intros array e; cbn [forOfPush].
  - split; [discriminate|]. intros [before [item [after [elements [H _]]]]].
    now destruct before.
  - destruct (body item) as [element|e'] eqn:Hbody; cbn [bind].
    + rewrite IH. split.
      * intros [before [it [after [elements [-> [Hall Hit]]]]]].
        exists (item :: before), it, after, (element :: elements).
        split; [reflexivity | split; [now constructor | exact Hit]].
      * intros [before [it [after [elements [Hitems [Hall Hit]]]]]].
        destruct before as [|b before].
        -- cbn in Hitems. injection Hitems as <- _. congruence.
        -- cbn in Hitems. injection Hitems as <- ->.
           inversion Hall as [|? y ? ys Hy Hrest]; subst.
           exists before, it, after, ys. split; [reflexivity | split; assumption].
    + split.
      * intros H. injection H as <-. exists [], item, rest, [].
        split; [reflexivity | split; [constructor | exact Hbody]].
      * intros [before [it [after [elements [Hitems [Hall Hit]]]]]].
        destruct before as [|b before].
        -- cbn in Hitems. injection Hitems as <- _. congruence.
        -- cbn in Hitems. injection Hitems as <- _.
           inversion Hall; subst. congruence.
Qed.

Lemma forOfPush_pure {A B : Type} (f : A -> B) (items : list A) : forall array,
  forOfPush (fun item => Ok (f item)) items array = Ok (array ++ map f items).
Proof.
  induction items as [|item rest IH]; intros array; cbn [forOfPush bind map].
  - now rewrite app_nil_r.
  - now rewrite IH, <- app_assoc.
Qed.

Lemma withBalance_returned (getNordigenAccountBalances : string -> result (list string))
    (account : Db.UserAccount) (element : LinkedAccounts.Account) :
  LinkedAccounts.withBalance getNordigenAccountBalances account = Ok element <->
  exists amount more,
    getNordigenAccountBalances (Db.account_id account) = Ok (amount :: more)
    /\ element = LinkedAccounts.toAccount account
                   (format FORMATTED_CURRENCY (nordigenCurrency amount)).
Proof.
  unfold LinkedAccounts.withBalance, formattedBalance.
  destruct (getNordigenAccountBalances (Db.account_id account)) as [[|amount more]|e]; cbn.
  - split; [discriminate | intros [? [? [? _]]]; discriminate].
  - split.
    + intros H. injection H as <-. now exists amount, more.
    + intros [a [m [H ->]]]. now injection H as <- <-.
  - split; [discriminate | intros [? [? [? _]]]; discriminate].
Qed.

(** X14 (the account list of a real user). For a user other than the
    mocked one, [getAccounts] returns a list exactly when the table answers
    and the provider gives at least one balance for every row; the list then
    holds one account per row, in the rows' order, with the row's values and
    the first balance in display format. *)
Theorem getAccounts_returns (MOCKED_USER_ID userId : string)
    (getUserAccounts : string -> result (list Db.UserAccount))
    (getNordigenAccountBalances : string -> result (list string))
    (out : list LinkedAccounts.Account) :
  userId <> MOCKED_USER_ID ->
  (LinkedAccounts.getAccounts MOCKED_USER_ID userId getUserAccounts getNordigenAccountBalances
   = Ok out
   <->
   exists data,
     getUserAccounts userId = Ok data
     /\ Forall2 (fun account element =>
                   exists amount more,
                     getNordigenAccountBalances (Db.account_id account) = Ok (amount :: more)
                     /\ element = LinkedAccounts.toAccount account
                                    (format FORMATTED_CURRENCY (nordigenCurrency amount)))
                data out).
Proof.
  intros Hreal. unfold LinkedAccounts.getAccounts.
  destruct (String.eqb_spec userId MOCKED_USER_ID) as [|_]; [contradiction|].
  destruct (getUserAccounts userId) as [data|e]; cbn [bind].
  - rewrite forOfPush_returned. split.
    + intros [elements [Hall ->]]. exists data. split; [reflexivity|]. cbn [app].
      eapply Forall2_impl; [|exact Hall]. intros a b. apply withBalance_returned.
    + intros [data' [Hdata Hall]]. injection Hdata as <-. exists out. split; [|reflexivity].
      eapply Forall2_impl; [|exact Hall]. intros a b. apply withBalance_returned.
  - split; [discriminate | intros [data [Hdata _]]; discriminate].
Qed.

(** X15 (all or nothing). When [getAccounts] fails for a real user, either
    the table failed, or some row is the first whose balance the provider
    did not give: the rows before it were answered, and the failure is the
    provider's error for that row, or a [TypeError] when the provider
    answered with no balance at all. No partial list is returned. *)
Theorem getAccounts_fails (MOCKED_USER_ID userId : string)
    (getUserAccounts : string -> result (list Db.UserAccount))
    (getNordigenAccountBalances : string -> result (list string)) (e : exn) :
  userId <> MOCKED_USER_ID ->
  LinkedAccounts.getAccounts MOCKED_USER_ID userId getUserAccounts getNordigenAccountBalances
  = Throw e ->
  getUserAccounts userId = Throw e
  \/ exists before account after,
       getUserAccounts userId = Ok (before ++ account :: after)
       /\ Forall (fun row => exists amount more,
                    getNordigenAccountBalances (Db.account_id row) = Ok (amount :: more)) before
       /\ (getNordigenAccountBalances (Db.account_id account) = Throw e
           \/ (getNordigenAccountBalances (Db.account_id account) = Ok [] /\ e = TypeError)).
Proof.
  intros Hreal. unfold LinkedAccounts.getAccounts.
  destruct (String.eqb_spec userId MOCKED_USER_ID) as [|_]; [contradiction|].
  destruct (getUserAccounts userId) as [data|e']; cbn [bind]; [|intros H; left; congruence].
  intros Hrun. right. apply forOfPush_throws in Hrun.
  destruct Hrun as [before [account [after [elements [-> [Hall Hfail]]]]]].
  exists before, account, after. split; [reflexivity | split].
  - clear Hfail. induction Hall as [|a b l l' Hab _ IH]; constructor; [|exact IH].
    apply withBalance_returned in Hab. destruct Hab as [amount [more [H _]]]. eauto.
  - unfold LinkedAccounts.withBalance, formattedBalance in Hfail.
    destruct (getNordigenAccountBalances (Db.account_id account)) as [[|amount more]|e'];
      cbn in Hfail.
    + right. split; congruence.
    + discriminate.
    + left. congruence.
Qed.

Lemma routeLoop_real (getNordigenAccountBalances : string -> result (list string))
    (data : list Db.UserAccount) : forall accounts,
  LinkedAccounts.routeLoop false getNordigenAccountBalances data accounts
  = forOfPush (LinkedAccounts.withBalance getNordigenAccountBalances) data accounts.
Proof.
  induction data as [|account rest IH]; intros accounts; [reflexivity|].
  cbn [LinkedAccounts.routeLoop forOfPush].
  destruct (LinkedAccounts.withBalance getNordigenAccountBalances account); cbn [bind];
    [apply IH | reflexivity].
Qed.

(** X16 (the two versions of the account list). For a real user the older
    route and the handler give the same answer. For the mocked user the
    handler lists every row with the balance [20.000,00] without asking the
    provider, while the older route answers with the first row only. *)
Theorem getAccounts_versions (MOCKED_USER_ID userId : string)
    (getUserAccounts : string -> result (list Db.UserAccount))
    (getNordigenAccountBalances : string -> result (list string)) :
  (userId <> MOCKED_USER_ID ->
   LinkedAccounts.getAccountsRoute MOCKED_USER_ID userId getUserAccounts
     getNordigenAccountBalances
   = LinkedAccounts.getAccounts MOCKED_USER_ID userId getUserAccounts
       getNordigenAccountBalances) /\
  (userId = MOCKED_USER_ID ->
   forall data, getUserAccounts userId = Ok data ->
     LinkedAccounts.getAccounts MOCKED_USER_ID userId getUserAccounts
       getNordigenAccountBalances
     = Ok (map (fun row => LinkedAccounts.toAccount row "20.000,00") data)
     /\ LinkedAccounts.getAccountsRoute MOCKED_USER_ID userId getUserAccounts
          getNordigenAccountBalances
        = Ok (firstn 1 (map (fun row => LinkedAccounts.toAccount row "20.000,00") data))).
Proof.
  unfold LinkedAccounts.getAccountsRoute, LinkedAccounts.getAccounts. split.
  - intros Hreal. destruct (String.eqb_spec userId MOCKED_USER_ID) as [|_]; [contradiction|].
    destruct (getUserAccounts userId); cbn [bind]; [apply routeLoop_real | reflexivity].
  - intros -> data ->. rewrite String.eqb_refl. cbn [bind]. split.
    + now rewrite forOfPush_pure.
    + now destruct data.
Qed.

Lemma describe_returned (requisition : string)
    (getNordigenAccountDetails : string -> result Nordigen.AccountDetails)
    (getNordigenAccountBalances : string -> result (list string))
    (account : string) (element : AvailableAccounts.Account) :
  AvailableAccounts.describe requisition getNordigenAccountDetails
    getNordigenAccountBalances account = Ok element ->
  AvailableAccounts.requisitionId element = requisition
  /\ AvailableAccounts.accountId element = account
  /\ exists details amount more,
       getNordigenAccountDetails account = Ok details
       /\ getNordigenAccountBalances account = Ok (amount :: more)
       /\ AvailableAccounts.accountName element = Nordigen.name details
       /\ AvailableAccounts.accountIban element = Nordigen.iban details
       /\ AvailableAccounts.accountBalance element
          = format FORMATTED_CURRENCY (nordigenCurrency amount).
Proof.
  unfold AvailableAccounts.describe, formattedBalance.
  destruct (getNordigenAccountDetails account) as [details|e]; cbn [bind]; [|discriminate].
  destruct (getNordigenAccountBalances account) as [[|amount more]|e]; cbn; try discriminate.
  intros H. injection H as <-. cbn. split; [reflexivity | split; [reflexivity|]].
  exists details, amount, more. repeat split.
Qed.

(** X17 (the accounts of a requisition). For a real user, a returned list
    of available accounts holds one entry per account id of the requisition,
    in the requisition's order, each carrying the requested requisition id,
    the provider's name and iban for that account and its first balance in
    display format. For the mocked user the answer is one fake account that
    carries the requested requisition id, whatever the provider does. *)
Theorem getAvailableAccounts_returns (MOCKED_USER_ID userId requisition uuid : string)
    (getNordigenRequisitions : string -> result (list string))
    (getNordigenAccountDetails : string -> result Nordigen.AccountDetails)
    (getNordigenAccountBalances : string -> result (list string)) :
  (userId <> MOCKED_USER_ID ->
   forall out,
     AvailableAccounts.getAvailableAccounts MOCKED_USER_ID userId requisition uuid
       getNordigenRequisitions getNordigenAccountDetails getNordigenAccountBalances = Ok out ->
     exists accounts,
       getNordigenRequisitions requisition = Ok accounts
       /\ map AvailableAccounts.accountId out = accounts
       /\ Forall (fun element =>
                    AvailableAccounts.requisitionId element = requisition
                    /\ exists details amount more,
                         getNordigenAccountDetails (AvailableAccounts.accountId element)
                           = Ok details
                         /\ getNordigenAccountBalances (AvailableAccounts.accountId element)
                            = Ok (amount :: more)
                         /\ AvailableAccounts.accountName element = Nordigen.name details
                         /\ AvailableAccounts.accountIban element = Nordigen.iban details
                         /\ AvailableAccounts.accountBalance element
                            = format FORMATTED_CURRENCY (nordigenCurrency amount)) out) /\
  (userId = MOCKED_USER_ID ->
   exists fake,
     AvailableAccounts.getAvailableAccounts MOCKED_USER_ID userId requisition uuid
       getNordigenRequisitions getNordigenAccountDetails getNordigenAccountBalances = Ok [fake]
     /\ AvailableAccounts.requisitionId fake = requisition
     /\ AvailableAccounts.accountId fake = uuid
     /\ AvailableAccounts.accountBalance fake = "20.000,00").
Proof.
  unfold AvailableAccounts.getAvailableAccounts. split.
  - intros Hreal out. destruct (String.eqb_spec userId MOCKED_USER_ID) as [|_]; [contradiction|].
    destruct (getNordigenRequisitions requisition) as [accounts|e]; cbn [bind]; [|discriminate].
    intros Hrun. apply forOfPush_returned in Hrun. destruct Hrun as [elements [Hall ->]].
    cbn [app]. exists accounts. split; [reflexivity|].
    induction Hall as [|account element accounts elements Hone _ [IHids IHall]].
    + split; [reflexivity | constructor].
    + apply describe_returned in Hone. destruct Hone as [Hreq [Hid Hrest]].
      cbn [map]. split; [now rewrite Hid, IHids|].
      constructor; [|exact IHall]. split; [exact Hreq|]. now rewrite Hid.
  - intros ->. rewrite String.eqb_refl. eexists. split; [reflexivity|]. now cbn.
Qed.


(** ** The pipeline on the sample data *)

Local Notation "'sampleMapped'" :=
  (mapCumulativeBalance Sample.newDate Sample.booked "500").
Local Notation "'sampleEnrich'" :=
  (enrich Sample.newDate 0 Sample.fuzzyScore Sample.getClassificationsTotal).

(** The worked example of the specification. *)
Example balance_fixture :
  map totalAmountInt (mapCumulativeBalance Sample.newDate Sample.fixture "500")
  = [Some 50000; Some 40000; Some 43000].
Proof. vm_compute. reflexivity. Qed.

(** The search step reorders: the best match comes first. *)
Example search_reorders :
  map weight (applyFuzzysort Sample.fuzzyScore (Some "Netto") sampleMapped)
  = [1; 3; 0]%nat.
Proof. vm_compute. reflexivity. Qed.

Lemma sample_classifies (observation : option string) :
  exists lab, classify Sample.getClassificationsTotal observation = Ok lab.
Proof.
  unfold classify, Sample.getClassificationsTotal, Sample.getClassifications.
  destruct observation as [t|]; [|eexists; reflexivity].
  destruct (Sample.findFrom _ _ _); eexists; reflexivity.
Qed.


Lemma filter_noninterference_witness :
  exists out unfiltered x,
    sampleEnrich Sample.booked "500" (Some "Netto") None (Some "2023-05-01") (Some "2023-05-05")
      = Ok out /\
    sampleEnrich Sample.booked "500" None None None None = Ok unfiltered /\
    In x out /\ In x unfiltered /\ totalAmountInt (transaction x) = Some 40000.
Proof.
  do 3 eexists. split; [vm_compute; reflexivity|].
  split; [vm_compute; reflexivity|].
  split; [left; reflexivity|].
  split; [|reflexivity].
  eapply (filter_noninterference Sample.newDate 0 Sample.fuzzyScore
            Sample.getClassificationsTotal Sample.booked "500"
            (Some "Netto") None (Some "2023-05-01") (Some "2023-05-05")).
  - vm_compute. reflexivity.
  - vm_compute. reflexivity.
  - left. reflexivity.
Defined.


Lemma search_identity_witness :
  (Some "" = None \/ Some "" = Some "") /\
  applyFuzzysort Sample.fuzzyScore (Some "") sampleMapped = sampleMapped.
Proof.
  split; [right; reflexivity|].
  apply search_identity. right. reflexivity.
Defined.

Lemma date_filter_all_or_nothing_witness :
  (Some "2023-05-01" = None \/ @None string = None) /\
  applyIntervalFiltering Sample.newDate 0 (Some "2023-05-01") None sampleMapped = sampleMapped.
Proof.
  split; [right; reflexivity|].
  apply date_filter_all_or_nothing. right. reflexivity.
Defined.



Lemma category_filter_exactness_witness :
  exists out,
    applyCategorization Sample.getClassificationsTotal (Some "Other") sampleMapped = Ok out /\
    map weightOf out = [2]%nat /\
    Subsequence (map transaction out) sampleMapped.
Proof.
  destruct (category_filter_exactness Sample.getClassificationsTotal (Some "Other") sampleMapped
              (fun t _ => sample_classifies (title t)))
    as [out [Hout [_ [_ [_ Hsub]]]]].
  exists out. split; [exact Hout | split; [|exact Hsub]].
  vm_compute in Hout. injection Hout as <-. reflexivity.
Defined.





Lemma empty_category_disables_filter_witness :
  exists out,
    applyCategorization Sample.getClassificationsTotal (Some "") sampleMapped = Ok out /\
    map transaction out = sampleMapped.
Proof.
  destruct (empty_category_disables_filter Sample.newDate 0 Sample.fuzzyScore
              Sample.getClassificationsTotal Sample.booked "500" None None None sampleMapped)
    as [_ [_ Hall]].
  eexists. split; [vm_compute; reflexivity|].
  apply Hall. vm_compute. reflexivity.
Defined.

(** ** The further results on the sample data *)



Lemma nan_balance_propagates_witness :
  nordigenCurrency "1.2.3" = None /\
  exists m,
    nth_error (mapCumulativeBalance Sample.newDate SampleRequests.spoiled "500") 2 = Some m /\
    totalAmountInt m = None /\ totalAmount m = "-NaN".
Proof.
  split; [reflexivity|]. eexists. split; [vm_compute; reflexivity|].
  apply (nan_balance_propagates Sample.newDate SampleRequests.spoiled "500" 2);
    [vm_compute; reflexivity|].
  right. exists 1%nat. eexists. split; [lia | split; reflexivity].
Defined.

Lemma pipeline_normal_form_witness :
  exists out,
    sampleEnrich Sample.booked "500" (Some "Netto") (Some "Food & Groceries") None None = Ok out /\
    map weightOf out = [0; 1; 3]%nat /\
    map transaction out
    = filter (fun m => searchPasses Sample.fuzzyScore (Some "Netto") m
                       && intervalPasses Sample.newDate 0 None None m
                       && retained Sample.getClassificationsTotal (Some "Food & Groceries") m)
        sampleMapped.
Proof.
  eexists. split; [vm_compute; reflexivity | split; [reflexivity|]].
  refine (proj1 (pipeline_normal_form Sample.newDate 0 Sample.fuzzyScore
                   Sample.getClassificationsTotal Sample.booked "500"
                   (Some "Netto") (Some "Food & Groceries") None None _ _)).
  vm_compute. reflexivity.
Defined.

Lemma search_results_above_threshold_witness :
  exists out x,
    sampleEnrich Sample.booked "500" (Some "Netto") None None None = Ok out /\
    In x out /\
    exists target score,
      title (transaction x) = Some target /\ target <> ""
      /\ Sample.fuzzyScore "Netto" target = Some score /\ -400 <= score.
Proof.
  do 2 eexists. split; [vm_compute; reflexivity | split; [left; reflexivity|]].
  eapply (search_results_above_threshold Sample.newDate 0 Sample.fuzzyScore
            Sample.getClassificationsTotal Sample.booked "500" "Netto" None None None).
  - discriminate.
  - vm_compute. reflexivity.
  - left. reflexivity.
Defined.

Lemma unreadable_dates_witness :
  Sample.newDate "yesterday" = None /\
  enrich Sample.newDate 0 Sample.fuzzyScore Sample.getClassifications
    Sample.booked "500" None None (Some "yesterday") (Some "2023-05-05") = Ok [].
Proof.
  split; [reflexivity|].
  apply (proj1 (unreadable_dates Sample.newDate 0 Sample.fuzzyScore Sample.getClassifications
                  Sample.booked "500" None None "yesterday" "2023-05-05"
                  ltac:(discriminate) ltac:(discriminate))).
  left. reflexivity.
Defined.

Lemma output_size_witness :
  exists out,
    sampleEnrich Sample.booked "500" None None None None = Ok out /\
    map weightOf out = [0; 1; 2; 3]%nat.
Proof.
  eexists. split; [vm_compute; reflexivity|].
  refine (proj1 (output_size Sample.newDate 0 Sample.fuzzyScore Sample.getClassificationsTotal
                   Sample.booked "500" None None None None) _ _).
  vm_compute. reflexivity.
Defined.

Lemma classifier_only_on_kept_witness :
  Sample.getClassifications None <> Sample.getClassificationsTotal None /\
  enrich Sample.newDate 0 Sample.fuzzyScore Sample.getClassifications
    Sample.booked "500" None None (Some "2023-05-02") (Some "2023-05-10")
  = enrich Sample.newDate 0 Sample.fuzzyScore Sample.getClassificationsTotal
      Sample.booked "500" None None (Some "2023-05-02") (Some "2023-05-10").
Proof.
  split; [discriminate|].
  apply classifier_only_on_kept. intros m Hm. vm_compute in Hm.
  destruct Hm as [<- | [<- | []]]; reflexivity.
Defined.

Lemma mocked_user_transactions_witness :
  exists x out,
    getAccountTransactionsRequest Sample.newDate 0 Sample.fuzzyScore
      Sample.getClassificationsTotal "mock" "mock" [SampleRequests.row "7" "acc-7"]
      SampleRequests.unreachable SampleRequests.unreachable Sample.booked
      None None None None = Ok (x :: out) /\
    totalAmount (transaction x) = "20.000,00" /\
    totalAmountInt (transaction x) = Some 2000000.
Proof.
  do 2 eexists. split; [vm_compute; reflexivity|].
  refine (proj2 (mocked_user_transactions Sample.newDate 0 Sample.fuzzyScore
                   Sample.getClassificationsTotal "mock" (SampleRequests.row "7" "acc-7") []
                   Sample.booked SampleRequests.unreachable SampleRequests.unreachable) _ _ _).
  vm_compute. reflexivity.
Defined.

Lemma verifyUser_second_word_witness :
  spaceless "Basic" /\ spaceless "signed-for-u1" /\
  Auth.verifyUser SampleRequests.jwtVerify (Some "Basic signed-for-u1 and more") = Ok "u1".
Proof.
  assert (H1 : spaceless "Basic") by (repeat constructor).
  assert (H2 : spaceless "signed-for-u1") by (repeat constructor).
  split; [exact H1 | split; [exact H2|]].
  exact (verifyUser_second_word SampleRequests.jwtVerify "Basic" "signed-for-u1" " and more"
           H1 H2 ltac:(discriminate) (or_intror (ex_intro _ "and more" eq_refl))).
Defined.

Lemma verifyUser_rejects_without_token_witness :
  spaceless "Bearer" /\
  Auth.verifyUser SampleRequests.jwtVerify (Some "Bearer  signed-for-u1")
  = Throw (ServerError 401).
Proof.
  assert (H : spaceless "Bearer") by (repeat constructor).
  split; [exact H|].
  apply verifyUser_rejects_without_token. right. right.
  exists "Bearer", " signed-for-u1". split; [reflexivity | split; [exact H|]].
  right. exists "signed-for-u1". reflexivity.
Defined.

Lemma verifyUser_only_401_witness :
  exists e,
    Auth.verifyUser SampleRequests.jwtVerify (Some "Bearer forged") = Throw e /\
    SampleRequests.jwtVerify "forged" = Throw (LibraryError "invalid signature") /\
    e = ServerError 401.
Proof.
  eexists. split; [vm_compute; reflexivity | split; [reflexivity|]].
  apply (verifyUser_only_401 SampleRequests.jwtVerify (Some "Bearer forged")).
  vm_compute. reflexivity.
Defined.

Lemma transactions_need_token_and_link_witness :
  Auth.headerToken (Some "Bearer signed-for-u1") = Some "signed-for-u1" /\
  SampleRequests.getLinkedAccount "u1" "acc-2" = Ok [] /\
  transactionsRoute Sample.newDate 0 Sample.fuzzyScore Sample.getClassificationsTotal
    SampleRequests.jwtVerify (Some "Bearer signed-for-u1") (Ok tt) "mock" "acc-2"
    SampleRequests.getLinkedAccount (fun _ => Ok Sample.booked)
    SampleRequests.getNordigenAccountBalances Sample.booked None None None None
  = Throw (ServerError 403).
Proof.
  split; [reflexivity | split; [reflexivity|]].
  apply (proj2 (proj2 (transactions_need_token_and_link Sample.newDate 0 Sample.fuzzyScore
                         Sample.getClassificationsTotal SampleRequests.jwtVerify
                         (Some "Bearer signed-for-u1") "mock" "acc-2"
                         SampleRequests.getLinkedAccount (fun _ => Ok Sample.booked)
                         SampleRequests.getNordigenAccountBalances Sample.booked
                         (Ok tt) None None None None))
               "signed-for-u1" {| Auth.id := "u1" |}).
  - reflexivity.
  - discriminate.
  - reflexivity.
  - reflexivity.
  - reflexivity.
Defined.

Lemma getAccounts_returns_witness :
  "u1" <> "mock" /\
  exists out data,
    LinkedAccounts.getAccounts "mock" "u1" SampleRequests.getUserAccounts
      SampleRequests.getNordigenAccountBalances = Ok out /\
    SampleRequests.getUserAccounts "u1" = Ok data /\
    map LinkedAccounts.accountBalance out = ["1.234,50"; "-20,00"] /\
    List.length out = List.length data.
Proof.
  assert (Hreal : "u1" <> "mock") by discriminate.
  split; [exact Hreal|].
  pose proof (getAccounts_returns "mock" "u1" SampleRequests.getUserAccounts
                SampleRequests.getNordigenAccountBalances) as Hiff.
  eexists. 
  assert (Hrun : LinkedAccounts.getAccounts "mock" "u1" SampleRequests.getUserAccounts
                   SampleRequests.getNordigenAccountBalances
                 = Ok [LinkedAccounts.toAccount (SampleRequests.row "1" "acc-1") "1.234,50";
                       LinkedAccounts.toAccount (SampleRequests.row "2" "acc-2") "-20,00"])
    by (vm_compute; reflexivity).
  destruct (proj1 (Hiff _ Hreal) Hrun) as [data [Hdata Hall]].
  exists data. split; [exact Hrun | split; [exact Hdata | split; [reflexivity|]]].
  symmetry. exact (Forall2_length Hall).
Defined.

Lemma getAccounts_fails_witness :
  "u2" <> "mock" /\
  LinkedAccounts.getAccounts "mock" "u2" SampleRequests.getUserAccountsStale
    SampleRequests.getNordigenAccountBalances = Throw (LibraryError "404") /\
  exists before account after,
    SampleRequests.getUserAccountsStale "u2" = Ok (before ++ account :: after)
    /\ List.length before = 1%nat
    /\ SampleRequests.getNordigenAccountBalances (Db.account_id account)
       = Throw (LibraryError "404").
Proof.
  assert (Hreal : "u2" <> "mock") by discriminate.
  assert (Hrun : LinkedAccounts.getAccounts "mock" "u2" SampleRequests.getUserAccountsStale
                   SampleRequests.getNordigenAccountBalances = Throw (LibraryError "404"))
    by (vm_compute; reflexivity).
  split; [exact Hreal | split; [exact Hrun|]].
  destruct (getAccounts_fails "mock" "u2" SampleRequests.getUserAccountsStale
              SampleRequests.getNordigenAccountBalances _ Hreal Hrun)
    as [Htable | [before [account [after [Hdata [Hbefore Hfail]]]]]]; [discriminate Htable|].
  exists before, account, after. split; [exact Hdata|].
  destruct Hfail as [Hfail | [_ Habsurd]]; [|discriminate Habsurd].
  split; [|exact Hfail].
  unfold SampleRequests.getUserAccountsStale in Hdata.
  destruct before as [|b0 [|b1 [|b2 before]]]; cbn in Hdata; injection Hdata; intros; subst;
    try reflexivity; try (vm_compute in Hfail; discriminate Hfail);
    try (inversion Hbefore as [|? ? _ Hrest]; inversion Hrest as [|? ? [? [? Hbad]] _];
         vm_compute in Hbad; discriminate Hbad).
Defined.

Lemma getAccounts_versions_witness :
  LinkedAccounts.getAccounts "mock" "mock" SampleRequests.getUserAccounts
    SampleRequests.unreachable
  = Ok [LinkedAccounts.toAccount (SampleRequests.row "7" "acc-7") "20.000,00";
        LinkedAccounts.toAccount (SampleRequests.row "8" "acc-8") "20.000,00"] /\
  LinkedAccounts.getAccountsRoute "mock" "mock" SampleRequests.getUserAccounts
    SampleRequests.unreachable
  = Ok [LinkedAccounts.toAccount (SampleRequests.row "7" "acc-7") "20.000,00"].
Proof.
  exact (proj2 (getAccounts_versions "mock" "mock" SampleRequests.getUserAccounts
                  SampleRequests.unreachable) eq_refl _ eq_refl).
Defined.

Lemma getAvailableAccounts_returns_witness :
  "u1" <> "mock" /\
  exists out,
    AvailableAccounts.getAvailableAccounts "mock" "u1" "req-1" "not-used"
      SampleRequests.getNordigenRequisitions SampleRequests.getNordigenAccountDetails
      SampleRequests.getNordigenAccountBalances = Ok out /\
    map AvailableAccounts.accountId out = ["acc-1"; "acc-2"] /\
    map AvailableAccounts.accountBalance out = ["1.234,50"; "-20,00"].
Proof.
  assert (Hreal : "u1" <> "mock") by discriminate.
  split; [exact Hreal|].
  eexists. split; [vm_compute; reflexivity | split; [|reflexivity]].
  match goal with
  | |- map _ ?o = _ =>
      destruct (proj1 (getAvailableAccounts_returns "mock" "u1" "req-1" "not-used"
                         SampleRequests.getNordigenRequisitions
                         SampleRequests.getNordigenAccountDetails
                         SampleRequests.getNordigenAccountBalances) Hreal o
                  ltac:(vm_compute; reflexivity))
        as [accounts [Haccounts [Hids _]]]
  end.
  rewrite Hids. vm_compute in Haccounts. now injection Haccounts as <-.
Defined.
